(** * modelbench / modelgauge: standards store, external data and SUT adapters

    A shallow embedding of
    - [src/modelbench/standards.py]           ([Module Standards]),
    - [src/modelgauge/external_data.py]       ([Module ExternalData]),
    - [plugins/google/.../google_genai_client.py]   ([Module GoogleGenAi]),
    - [plugins/huggingface/.../huggingface_api.py]  ([Module HuggingFace]).

    Python exceptions are values of [exn]; a call that may raise returns a
    [result].  Python [str] is modelled as [string] (a byte string: [lower]
    acts on the ASCII letters only), a Python [float] that is computed
    with as an IEEE 754 binary64 number ([spec_float]) and one that is only
    passed on as the rational it denotes, a Python [dict] with string keys as a [gmap string _] when it is
    only looked up and iterated, and as an association list inside the
    untyped JSON-like values [pyval]. *)

From Stdlib Require Import Ascii String QArith Qcanon SpecFloat.
From stdpp Require Import gmap strings list fin_maps pretty.

Local Open Scope string_scope.
Local Open Scope list_scope.
Local Open Scope nat_scope.
Local Open Scope stdpp_scope.
Set Warnings "-register-all".

(** ** Exceptions and results *)

Record SecretDescription := mkSecretDescription {
  scope : string;
  key : string;
  instructions : string
}.

Inductive exn :=
| ValueError (msg : string)
| AssertionError (msg : string)
| StatisticsError (msg : string)
| OverflowError (msg : string)
| OSError (msg : string)
| RuntimeError (msg : string)
| KeyError (k : string)
| IndexError
| TypeError
| ValidationError
| JSONDecodeError
| FileNotFoundError (path : string)
| MissingSecretValues (descriptions : list SecretDescription)
| HTTPError (status_code : Z)
| ConnectionError (msg : string).

Inductive result (A : Type) :=
| OK (a : A)
| Raise (e : exn).
Arguments OK {A} a.
Arguments Raise {A} e.

Definition bind {A B} (r : result A) (k : A -> result B) : result B :=
  match r with
  | OK a => k a
  | Raise e => Raise e
  end.

Notation "x <- r ;;; k" := (bind r (fun x => k))
  (at level 100, r at next level, right associativity).

(** [[f(x) for x in l]] where [f] may raise: the first exception aborts. *)
Fixpoint mapM {A B} (f : A -> result B) (l : list A) : result (list B) :=
  match l with
  | [] => OK []
  | x :: l' => y <- f x ;;; ys <- mapM f l' ;;; OK (y :: ys)
  end.

(** ** Python strings *)

Definition lower_ascii (c : ascii) : ascii :=
  let n := N_of_ascii c in
  if ((65 <=? n) && (n <=? 90))%N then ascii_of_N (n + 32) else c.

(** [str.lower()] *)
Fixpoint lower (s : string) : string :=
  match s with
  | EmptyString => EmptyString
  | String c s' => String (lower_ascii c) (lower s')
  end.

(** [hay.startswith(needle)] *)
Fixpoint startswith (needle hay : string) : bool :=
  match needle, hay with
  | EmptyString, _ => true
  | String _ _, EmptyString => false
  | String a n', String b h' => if decide (a = b) then startswith n' h' else false
  end.

(** [needle in hay] on two [str] *)
Fixpoint contains (needle hay : string) : bool :=
  if startswith needle hay then true
  else match hay with
       | EmptyString => false
       | String _ h' => contains needle h'
       end.

(** ** Standards store ([modelbench/standards.py]) *)

Module Standards.

(** A Python [float]: an IEEE 754 binary64 number, as the standard
    library specifies them ([prec = 53], [emax = 1024]); the values read
    from the file are valid numbers of that format. *)
Definition float64 : Type := spec_float.
Definition prec : Z := 53.
Definition emax : Z := 1024.

(** [float(z)] for an integer, and the quotient [x / y] of two floats,
    both rounded to nearest, ties to even. *)
Definition float_of_Z (z : Z) : float64 := binary_normalize prec emax z 0 false.
Definition float_div (x y : float64) : float64 := SFdiv prec emax x y.

Definition is_finite (v : float64) : bool :=
  match v with
  | S754_zero _ | S754_finite _ _ _ => true
  | _ => false
  end.
Definition is_nan (v : float64) : bool :=
  match v with S754_nan => true | _ => false end.
Definition is_inf (s : bool) (v : float64) : bool :=
  match v with S754_infinity s' => Bool.eqb s s' | _ => false end.

(** The exact value of a finite float, counted in units of [2 ^ -1074]
    (every binary64 number is a whole number of them). *)
Definition exact (v : float64) : Z :=
  match v with
  | S754_finite s m e => cond_Zopp s (Z.shiftl (Z.pos m) (e + 1074))
  | _ => 0
  end.

Definition exact_sum (values : list float64) : Z :=
  foldr Z.add 0%Z (exact <$> values).

(** [math.fsum]: the exact sum of the finite values, rounded once.  An
    infinite value makes the result infinite, a NaN makes it NaN, both
    infinities raise; a sum too large for a float raises.  (CPython also
    raises when a partial sum overflows on the way, in the order of
    iteration, even if the whole sum would fit.) *)
Definition fsum (values : list float64) : result float64 :=
  if existsb (is_inf false) values && existsb (is_inf true) values then
    Raise (ValueError "-inf + inf in fsum")
  else if existsb is_nan values then OK S754_nan
  else if existsb (is_inf false) values then OK (S754_infinity false)
  else if existsb (is_inf true) values then OK (S754_infinity true)
  else
    let total := binary_normalize prec emax (exact_sum values) (-1074) false in
    if is_finite total then OK total
    else Raise (OverflowError "intermediate overflow in fsum").

(** [statistics.fmean]: [fsum(data) / len(data)]. *)
Definition fmean (values : list float64) : result float64 :=
  match values with
  | [] => Raise (StatisticsError "fmean requires at least one data point")
  | _ =>
      total <- fsum values ;;;
      let n := float_of_Z (Z.of_nat (length values)) in
      if is_finite n then OK (float_div total n)
      else Raise (OverflowError "int too large to convert to float")
  end.

(** [self.data], after [reload]: the ["standards"] object of the file. *)
Record data := mkData {
  reference_standards : gmap string float64
}.

Definition reference_standard_for (self : data) (name : string) : result float64 :=
  match reference_standards self !! name with
  | None =>
      Raise (ValueError ("No standard yet for " +:+ name +:+
                         ". Run `modelbench calibrate --update` to add one."))
  | Some v => OK v
  end.

(** The list comprehension
    [[v for k, v in self.data["reference_standards"].items() if locale in k]]. *)
Definition matching_items (self : data) (locale : string)
    : list (string * float64) :=
  filter (fun kv => contains locale kv.1 = true)
         (map_to_list (reference_standards self)).

Section WithLocales.

(** [modelgauge.locales.validate_locale] is not part of the sources at hand:
    it is a parameter, which either returns or raises. *)
Variable validate_locale : string -> result unit.

Definition average_standard_across_references
    (self : data) (locale version : string) : result float64 :=
  if negb (String.eqb version "1.0") then
    Raise (AssertionError "Only version 1.0 is supported.")
  else if String.eqb locale EmptyString then
    Raise (ValueError "Locale is required for v1.0 scoring.")
  else
    let locale := lower locale in
    _ <- validate_locale locale ;;;
    let values := (matching_items self locale).*2 in
    if Nat.eqb (length values) 0 then
      Raise (AssertionError "No reference values found")
    else fmean values.

End WithLocales.

End Standards.

(** ** External data ([modelgauge/external_data.py]) *)

Module ExternalData.

(** What the methods use of a [requests.Response]. *)
Record Response := mkResponse {
  status_code : Z;
  content : string;
  text : string
}.

(** [Response.ok]: [raise_for_status] raises for 400 <= status < 600 only. *)
Definition ok (r : Response) : bool :=
  negb ((400 <=? status_code r)%Z && (status_code r <? 600)%Z).

(** An entry of the listing [gdown.download_folder(..., skip_download=True)]. *)
Record GFile := mkGFile {
  id : string;
  path : string
}.

(** What [open(location, "wb")] followed by [write] did: the file holds
    the content; or [open] raised and the file is as before; or the file
    was opened, which empties it, and [write] raised after [partial] was
    written. *)
Inductive write_outcome :=
| Written
| NotOpened (e : exn)
| Truncated (e : exn) (partial : string).

(** What [shutil.copy(src, dst)] did: it wrote [content] to [target]
    ([dst], or the file named like [src] inside [dst] when [dst] is a
    directory); or it raised (no source, a directory, the same file, no
    room), leaving at most one file changed. *)
Inductive copy_outcome :=
| Copied (target content : string)
| NotCopied (e : exn) (partial : option (string * string)).

(** The outside world, as answers to the calls the methods make.  The
    first argument is the number of calls made before this one.
    [urlretrieve] either fetches the whole body into the file or raises,
    and [urlretrieve_remains] tells what a call that raised had already
    written to the file ([None] when it had not opened it).
    [gdown.download] writes a temporary file and moves it to the location
    at the end. *)
Record env := mkEnv {
  urlretrieve : nat -> string -> result string;
  urlretrieve_remains : nat -> string -> option string;
  requests_get : nat -> string -> string * string -> result Response;
  open_write : nat -> string -> string -> write_outcome;
  gdown_download_folder : nat -> string -> result (list GFile);
  gdown_download : nat -> string -> result string;
  shutil_copy : nat -> string -> string -> copy_outcome
}.

(** The local state: the files written so far, the number of outside
    calls made, the waits slept by the retry decorator (oldest first), and
    how many times the body of a [download] method was entered
    (instrumentation only). *)
Record world := mkWorld {
  files : gmap string string;
  clock : nat;
  slept : list Z;
  entered : nat
}.

Definition tick (w : world) : world :=
  mkWorld (files w) (S (clock w)) (slept w) (entered w).
(** The file at [location] now holds [body]: the effect of a write that
    went through. *)
Definition write_file (location body : string) (w : world) : world :=
  mkWorld (<[location := body]> (files w)) (clock w) (slept w) (entered w).
Definition sleep (seconds : Z) (w : world) : world :=
  mkWorld (files w) (clock w) (slept w ++ [seconds]) (entered w).
Definition enter (w : world) : world :=
  mkWorld (files w) (clock w) (slept w) (S (entered w)).

(** *** [tenacity.retry] *)

(** [sys.maxsize / 2] on a 64-bit build. *)
Definition MAX_WAIT : Z := 2 ^ 62.

(** [wait_exponential(multiplier, min)], with [exp_base = 2]. *)
Definition wait_exponential (multiplier min : Z) (attempt_number : nat) : Z :=
  Z.max (Z.max 0 min)
        (Z.min (multiplier * 2 ^ (Z.of_nat attempt_number - 1)) MAX_WAIT).

(** The retrying loop with [reraise=True]: call [fn]; on an exception stop
    and re-raise it when no attempt remains, otherwise sleep and go on. *)
Fixpoint retry_loop (remaining attempt_number : nat) (wait : nat -> Z)
    (fn : world -> result unit * world) (w : world) : result unit * world :=
  match fn w with
  | (OK a, w') => (OK a, w')
  | (Raise e, w') =>
      match remaining with
      | O => (Raise e, w')
      | S r => retry_loop r (S attempt_number) wait fn (sleep (wait attempt_number) w')
      end
  end.

(** [@retry(stop=stop_after_attempt(n), wait=wait, reraise=True)] *)
Definition retry (stop_after_attempt : nat) (wait : nat -> Z)
    (fn : world -> result unit * world) (w : world) : result unit * world :=
  retry_loop (stop_after_attempt - 1) 1 wait fn w.

(** *** The data sources *)

(** A [RequiredSecret] or [OptionalSecret] object. *)
Record Secret := mkSecret {
  value : option string;
  description : SecretDescription
}.

(** The subclasses of [ExternalData] ([decompressor] and [unpacker] play
    no part in [download]).  The [secret] field may hold [None]. *)
Inductive ExternalData :=
| WebData (source_url : string)
| SecretWebData (source_url header : string) (secret : option Secret)
| GDriveData (data_source file_path : string)
| LocalData (path : string).

Section WithEnv.

Variable E : env.

(** Bodies of the [download] methods, without the decorator. *)

Definition WebData_download_body (source_url location : string) (w : world)
    : result unit * world :=
  let w := enter w in
  match urlretrieve E (clock w) source_url with
  | OK body => (OK tt, write_file location body (tick w))
  | Raise e =>
      (Raise e,
       match urlretrieve_remains E (clock w) source_url with
       | Some partial => write_file location partial (tick w)
       | None => tick w
       end)
  end.

Definition SecretWebData_download_body
    (source_url header : string) (secret : option Secret) (location : string)
    (w : world) : result unit * world :=
  let w := enter w in
  if String.eqb header EmptyString then
    (Raise (ValueError ("Secret data for " +:+ source_url +:+ " needs a header")), w)
  else match secret with
  | None =>
    (Raise (ValueError ("Secret data for " +:+ source_url +:+ " needs a secret")), w)
  | Some s =>
    match value s with
    | None | Some EmptyString => (Raise (MissingSecretValues [description s]), w)
    | Some v =>
      match requests_get E (clock w) source_url (header, v) with
      | Raise e => (Raise e, tick w)
      | OK response =>
        if ok response then
          let w := tick w in
          match open_write E (clock w) location (content response) with
          | Written => (OK tt, write_file location (content response) w)
          | NotOpened e => (Raise e, w)
          | Truncated e partial => (Raise e, write_file location partial w)
          end
        else
          (Raise (RuntimeError ("failed to fetch " +:+ source_url +:+ ": " +:+
                                pretty (status_code response) +:+ ": " +:+
                                text response)), tick w)
      end
    end
  end.

Definition GDriveData_download_body (data_source file_path location : string)
    (w : world) : result unit * world :=
  let w := enter w in
  match gdown_download_folder E (clock w) data_source with
  | Raise e => (Raise e, tick w)
  | OK available_files =>
    let w := tick w in
    match List.find (fun file => String.eqb (path file) file_path) available_files with
    | Some file =>
      match gdown_download E (clock w) (id file) with
      | OK body => (OK tt, write_file location body (tick w))
      | Raise e => (Raise e, tick w)
      end
    | None =>
      (Raise (RuntimeError ("Cannot find file with name " +:+ file_path +:+
                            " in google drive folder " +:+ data_source)), w)
    end
  end.

(** [shutil.copy(self.path, location)] *)
Definition LocalData_download_body (path location : string) (w : world)
    : result unit * world :=
  let w := enter w in
  match shutil_copy E (clock w) path location with
  | Copied target content => (OK tt, write_file target content (tick w))
  | NotCopied e partial =>
      (Raise e,
       match partial with
       | Some (target, content) => write_file target content (tick w)
       | None => tick w
       end)
  end.

(** [download], as decorated in each subclass. *)
Definition download (d : ExternalData) (location : string) (w : world)
    : result unit * world :=
  match d with
  | WebData source_url =>
      retry 5 (wait_exponential 1 1) (WebData_download_body source_url location) w
  | SecretWebData source_url header secret =>
      retry 5 (wait_exponential 1 1)
            (SecretWebData_download_body source_url header secret location) w
  | GDriveData data_source file_path =>
      retry 5 (wait_exponential 3 15)
            (GDriveData_download_body data_source file_path location) w
  | LocalData path => LocalData_download_body path location w
  end.

End WithEnv.

End ExternalData.

(** ** Untyped Python values

    What [model_dump], [to_dict] and [Response.json] produce: JSON-like
    values whose dictionaries have string keys, kept in insertion order. *)

Inductive pyval :=
| PNone
| PBool (b : bool)
| PInt (n : Z)
| PFloat (x : Qc)
| PStr (s : string)
| PList (items : list pyval)
| PDict (items : list (string * pyval)).

Definition is_None (v : pyval) : bool :=
  match v with PNone => true | _ => false end.

Fixpoint dict_get (k : string) (items : list (string * pyval)) : option pyval :=
  match items with
  | [] => None
  | (k', v) :: items' => if String.eqb k k' then Some v else dict_get k items'
  end.

Definition dict_keys (items : list (string * pyval)) : list string := items.*1.

(** Position [i] of a sequence of length [len], as Python resolves it. *)
Definition resolve_index (i : Z) (len : nat) : option nat :=
  let j := if (i <? 0)%Z then (i + Z.of_nat len)%Z else i in
  if ((0 <=? j)%Z && (j <? Z.of_nat len)%Z) then Some (Z.to_nat j) else None.

(** [v[k]] for a string literal [k]. *)
Definition subscript_str (v : pyval) (k : string) : result pyval :=
  match v with
  | PDict items =>
      match dict_get k items with
      | Some x => OK x
      | None => Raise (KeyError k)
      end
  | _ => Raise TypeError
  end.

(** [v[i]] for an integer literal [i]. *)
Definition subscript_int (v : pyval) (i : Z) : result pyval :=
  match v with
  | PList items =>
      match resolve_index i (length items) with
      | Some j => match items !! j with Some x => OK x | None => Raise IndexError end
      | None => Raise IndexError
      end
  | PStr s =>
      match resolve_index i (String.length s) with
      | Some j => match String.get j s with
                  | Some c => OK (PStr (String c EmptyString))
                  | None => Raise IndexError
                  end
      | None => Raise IndexError
      end
  | PDict _ => Raise (KeyError (pretty i))
  | _ => Raise TypeError
  end.

(** A field of type [Optional[T]] in the output of [model_dump()]. *)
Definition dump_optional {A} (f : A -> pyval) (o : option A) : pyval :=
  match o with
  | Some a => f a
  | None => PNone
  end.

(** [exclude_none=True]: the fields whose value is [None] are left out. *)
Definition exclude_none (fields : list (string * pyval)) : list (string * pyval) :=
  List.filter (fun kv => negb (is_None kv.2)) fields.

(** Does [None] occur anywhere in a value? *)
Fixpoint mentions_None (v : pyval) : bool :=
  match v with
  | PNone => true
  | PList items => existsb mentions_None items
  | PDict items => existsb (fun kv => mentions_None kv.2) items
  | _ => false
  end.

(** ** Prompts and normalized responses *)

Module Prompt.

(** Modelled from the spec: [modelgauge.prompt] is not part of the sources
    at hand.  A prompt is "immutable text plus an options bag (stop
    sequences, max tokens, temperature, top-p, top-k, penalties)"; an unset
    option is [None]. *)
Record SUTOptions := mkSUTOptions {
  stop_sequences : option (list string);
  max_tokens : option Z;
  temperature : option Qc;
  top_p : option Qc;
  top_k_per_token : option Z;
  presence_penalty : option Qc;
  frequency_penalty : option Qc
}.

Record TextPrompt := mkTextPrompt {
  text : string;
  options : SUTOptions
}.

End Prompt.

Module SUT.

(** Modelled from the spec: [modelgauge.sut] is not part of the sources at
    hand.  A [SUTResponse] is a "normalized completion list"; a completion
    carries its text, a [str]. *)
Record SUTCompletion := mkSUTCompletion {
  text : string
}.

Record SUTResponse := mkSUTResponse {
  completions : list SUTCompletion
}.

(** [SUTCompletion(text=v)]: the field is validated to be a [str]. *)
Definition make_SUTCompletion (v : pyval) : result SUTCompletion :=
  match v with
  | PStr s => OK (mkSUTCompletion s)
  | _ => Raise ValidationError
  end.

End SUT.

(** ** Google Gen AI adapter ([suts/google_genai_client.py]) *)

Module GoogleGenAi.

Record GoogleGenAiConfig := mkGoogleGenAiConfig {
  stop_sequences : option (list string);
  max_output_tokens : option Z;
  temperature : option Qc;
  top_p : option Qc;
  top_k : option Z;
  presence_penalty : option Qc;
  frequency_penalty : option Qc
}.

Record GoogleGenAiRequest := mkGoogleGenAiRequest {
  contents : string;
  generation_config : GoogleGenAiConfig
}.

Record Candidate := mkCandidate {
  content : list (string * pyval);
  finish_reason : Z
}.

Record GoogleGenAiResponse := mkGoogleGenAiResponse {
  candidates : list Candidate;
  usage_metadata : list (string * pyval)
}.

(** A [genai.GenerativeModel]: the [handle] tells the objects apart. *)
Record GenerativeModel := mkGenerativeModel {
  handle : nat;
  client_model_name : string
}.

(** The attributes of a [GoogleGenAiSUT] object. *)
Record GoogleGenAiSUT := mkGoogleGenAiSUT {
  uid : string;
  model_name : string;
  model : option GenerativeModel
}.

(** The clients constructed so far and the calls sent, oldest first. *)
Record world := mkWorld {
  created : list GenerativeModel;
  sent : list (GenerativeModel * list (string * pyval))
}.

Definition config_model_dump (c : GoogleGenAiConfig) : list (string * pyval) :=
  [ ("stop_sequences", dump_optional (fun l => PList (PStr <$> l)) (stop_sequences c));
    ("max_output_tokens", dump_optional PInt (max_output_tokens c));
    ("temperature", dump_optional PFloat (temperature c));
    ("top_p", dump_optional PFloat (top_p c));
    ("top_k", dump_optional PInt (top_k c));
    ("presence_penalty", dump_optional PFloat (presence_penalty c));
    ("frequency_penalty", dump_optional PFloat (frequency_penalty c)) ].

(** [request.model_dump(exclude_none=True)] *)
Definition model_dump_exclude_none (request : GoogleGenAiRequest)
    : list (string * pyval) :=
  exclude_none
    [ ("contents", PStr (contents request));
      ("generation_config",
       PDict (exclude_none (config_model_dump (generation_config request)))) ].

Definition translate_text_prompt (prompt : Prompt.TextPrompt) : GoogleGenAiRequest :=
  let o := Prompt.options prompt in
  let generation_config :=
    {| stop_sequences := Prompt.stop_sequences o;
       max_output_tokens := Prompt.max_tokens o;
       temperature := Prompt.temperature o;
       top_p := Prompt.top_p o;
       top_k := Prompt.top_k_per_token o;
       presence_penalty := Prompt.presence_penalty o;
       frequency_penalty := Prompt.frequency_penalty o |} in
  {| contents := Prompt.text prompt; generation_config := generation_config |}.

Definition _load_client (self : GoogleGenAiSUT) (w : world) : GenerativeModel * world :=
  let client := mkGenerativeModel (length (created w)) (model_name self) in
  (client, mkWorld (created w ++ [client]) (sent w)).

Definition set_model (self : GoogleGenAiSUT) (m : GenerativeModel) : GoogleGenAiSUT :=
  mkGoogleGenAiSUT (uid self) (model_name self) (Some m).

(** The constructor: no client yet.  ([genai.configure], which stores the
    key in the vendor's library, has no counterpart here.) *)
Definition __init__ (uid model_name : string) : GoogleGenAiSUT :=
  mkGoogleGenAiSUT uid model_name None.

Section WithVendor.

(** The vendor: what [generate_content] called with keyword arguments
    [kwargs] gives after [to_dict()] for the call number [n] (or the
    exception raised), and the validation done by the constructor
    [GoogleGenAiResponse] on that dictionary. *)
Variable generate_content :
  nat -> GenerativeModel -> list (string * pyval) -> result pyval.
Variable validate_response : pyval -> result GoogleGenAiResponse.

Definition evaluate (self : GoogleGenAiSUT) (request : GoogleGenAiRequest) (w : world)
    : result GoogleGenAiResponse * GoogleGenAiSUT * world :=
  let '(client, self, w) :=
    match model self with
    | None => let '(c, w') := _load_client self w in (c, set_model self c, w')
    | Some c => (c, self, w)
    end in
  let kwargs := model_dump_exclude_none request in
  let w' := mkWorld (created w) (sent w ++ [(client, kwargs)]) in
  match generate_content (length (sent w)) client kwargs with
  | Raise e => (Raise e, self, w')
  | OK d => (validate_response d, self, w')
  end.

(** A run of calls to [evaluate] on one SUT object; the results are
    collected, newest last. *)
Fixpoint evaluate_all (self : GoogleGenAiSUT) (requests : list GoogleGenAiRequest)
    (w : world) : list (result GoogleGenAiResponse) * GoogleGenAiSUT * world :=
  match requests with
  | [] => ([], self, w)
  | r :: rs =>
      let '(x, self', w') := evaluate self r w in
      let '(xs, self'', w'') := evaluate_all self' rs w' in
      (x :: xs, self'', w'')
  end.

End WithVendor.

(** [candidate.content["parts"][0]["text"]] *)
Definition candidate_text (candidate : Candidate) : result pyval :=
  parts <- subscript_str (PDict (content candidate)) "parts" ;;;
  part <- subscript_int parts 0 ;;;
  subscript_str part "text".

Definition translate_response (request : GoogleGenAiRequest)
    (response : GoogleGenAiResponse) : result SUT.SUTResponse :=
  completions <-
    mapM (fun candidate => t <- candidate_text candidate ;;; SUT.make_SUTCompletion t)
         (candidates response) ;;;
  OK (SUT.mkSUTResponse completions).

End GoogleGenAi.

(** ** Hugging Face adapter ([suts/huggingface_api.py]) *)

Module HuggingFace.

Record HuggingFaceChatParams := mkHuggingFaceChatParams {
  max_new_tokens : option Z;
  temperature : option Qc
}.

Record HuggingFaceChatRequest := mkHuggingFaceChatRequest {
  inputs : string;
  parameters : HuggingFaceChatParams
}.

Record HuggingFaceResponse := mkHuggingFaceResponse {
  generated_text : string
}.

Record HuggingFaceSUT := mkHuggingFaceSUT {
  uid : string;
  token : string;
  api_url : string
}.

(** The constructor keeps the value of the token, not the secret object. *)
Definition __init__ (uid api_url token_value : string) : HuggingFaceSUT :=
  mkHuggingFaceSUT uid token_value api_url.

(** What [evaluate] uses of a [requests.Response]; [json] is what
    [response.json()] returns or raises. *)
Record Response := mkResponse {
  status_code : Z;
  json : result pyval;
  content : string;
  headers : list (string * string)
}.

(** [Response.raise_for_status] *)
Definition raise_for_status (r : Response) : result unit :=
  if ((400 <=? status_code r)%Z && (status_code r <? 600)%Z)
  then Raise (HTTPError (status_code r))
  else OK tt.

(** The requests posted and the failures printed, oldest first. *)
Record world := mkWorld {
  posted : list (string * list (string * string) * list (string * pyval));
  printed : list (list (string * pyval) * Response)
}.

Definition params_model_dump (p : HuggingFaceChatParams) : list (string * pyval) :=
  [ ("max_new_tokens", dump_optional PInt (max_new_tokens p));
    ("temperature", dump_optional PFloat (temperature p)) ].

(** [request.model_dump(exclude_none=True)] *)
Definition model_dump_exclude_none (request : HuggingFaceChatRequest)
    : list (string * pyval) :=
  exclude_none
    [ ("inputs", PStr (inputs request));
      ("parameters", PDict (exclude_none (params_model_dump (parameters request)))) ].

Definition translate_text_prompt (prompt : Prompt.TextPrompt) : HuggingFaceChatRequest :=
  {| inputs := Prompt.text prompt;
     parameters :=
       {| max_new_tokens := Prompt.max_tokens (Prompt.options prompt);
          temperature := Prompt.temperature (Prompt.options prompt) |} |}.

(** [HuggingFaceResponse] called with the entries of [response_json] as
    keyword arguments: the argument must be a mapping, its
    [generated_text] a [str]; other keys are ignored. *)
Definition make_HuggingFaceResponse (response_json : pyval) : result HuggingFaceResponse :=
  match response_json with
  | PDict items =>
      match dict_get "generated_text" items with
      | Some (PStr s) => OK (mkHuggingFaceResponse s)
      | _ => Raise ValidationError
      end
  | _ => Raise TypeError
  end.

Section WithEndpoint.

(** The endpoint: the answer to the POST number [n], or the exception
    [requests.post] raises. *)
Variable requests_post :
  nat -> string -> list (string * string) -> list (string * pyval) -> result Response.

Definition evaluate (self : HuggingFaceSUT) (request : HuggingFaceChatRequest) (w : world)
    : result HuggingFaceResponse * world :=
  let headers :=
    [ ("Accept", "application/json");
      ("Authorization", "Bearer " +:+ token self);
      ("Content-Type", "application/json") ] in
  let payload := model_dump_exclude_none request in
  let w' := mkWorld (posted w ++ [(api_url self, headers, payload)]) (printed w) in
  match requests_post (length (posted w)) (api_url self) headers payload with
  | Raise e => (Raise e, w')
  | OK response =>
      let tried :=
        _ <- (if negb (status_code response =? 200)%Z
              then raise_for_status response else OK tt) ;;;
        body <- json response ;;;
        response_json <- subscript_int body 0 ;;;
        make_HuggingFaceResponse response_json in
      match tried with
      | OK r => (OK r, w')
      | Raise e => (Raise e, mkWorld (posted w') (printed w' ++ [(payload, response)]))
      end
  end.

End WithEndpoint.

Definition translate_response (request : HuggingFaceChatRequest)
    (response : HuggingFaceResponse) : SUT.SUTResponse :=
  SUT.mkSUTResponse [SUT.mkSUTCompletion (generated_text response)].

End HuggingFace.

(** ** Specification-side definitions

    The statements of the specification that the code is compared with,
    and the concrete scenarios they are evaluated on. *)

Module StandardsSpec.
Import Standards.


(** What [statistics.fmean] returns for [values]: when all are finite, the
    float nearest to their exact sum, divided by the float of their count
    and rounded again; a NaN, or else an infinity, when the values hold
    one. *)
Inductive is_fmean_of (values : list float64) : float64 → Prop :=
| fmean_finite :
    (∀ v, v ∈ values → is_finite v = true) →
    is_fmean_of values
      (float_div (binary_normalize prec emax (exact_sum values) (-1074) false)
                 (float_of_Z (Z.of_nat (length values))))
| fmean_nan :
    S754_nan ∈ values →
    ¬ (S754_infinity false ∈ values ∧ S754_infinity true ∈ values) →
    is_fmean_of values
      (float_div S754_nan (float_of_Z (Z.of_nat (length values))))
| fmean_infinite s :
    S754_infinity s ∈ values → S754_infinity (negb s) ∉ values →
    S754_nan ∉ values →
    is_fmean_of values
      (float_div (S754_infinity s) (float_of_Z (Z.of_nat (length values)))).

(** Why [statistics.fmean] raises on a non-empty list: both infinities
    occur, the rounded sum is not a finite float, or the count is not. *)
Inductive fmean_raises (values : list float64) : exn → Prop :=
| both_infinities :
    S754_infinity false ∈ values → S754_infinity true ∈ values →
    fmean_raises values (ValueError "-inf + inf in fsum")
| sum_overflows :
    (∀ v, v ∈ values → is_finite v = true) →
    is_finite (binary_normalize prec emax (exact_sum values) (-1074) false) = false →
    fmean_raises values (OverflowError "intermediate overflow in fsum")
| count_overflows :
    is_finite (float_of_Z (Z.of_nat (length values))) = false →
    fmean_raises values (OverflowError "int too large to convert to float").

(** [needle] occurs in [hay] as a contiguous run of characters. *)
Definition occurs_in (needle hay : string) : Prop :=
  ∃ before after, hay = before +:+ needle +:+ after.



(** The specification's reading of the empty-locale guard: a [ValueError]
    whatever the version. *)
Definition empty_locale_as_specified
    (validate_locale : string → result unit) (self : data) (version : string) : Prop :=
  ∃ msg, average_standard_across_references validate_locale self EmptyString version
         = Raise (ValueError msg).

Definition recalibrate_message (name : string) : string :=
  "No standard yet for " +:+ name +:+
  ". Run `modelbench calibrate --update` to add one.".

(** The float that the decimal literal of [n / d] denotes, for small
    whole numbers [n] and [d]: the float nearest to the quotient. *)
Definition ratio (n d : Z) : float64 := float_div (float_of_Z n) (float_of_Z d).

(** The scenario of the specification, keys as written there. *)
Definition scenario : data :=
  mkData (<["dfm_en_US_practice" := ratio 8 10]>
          (<["dfm_en_US_official" := ratio 6 10]> ∅)).

(** The same scenario with the locale in lower case inside the keys. *)
Definition scenario_lower : data :=
  mkData (<["dfm_en_us_practice" := ratio 8 10]>
          (<["dfm_en_us_official" := ratio 6 10]> ∅)).

(** Two standards of 1e308 each: their sum is beyond the largest float. *)
Definition scenario_huge : data :=
  mkData (<["dfm_en_us_practice" := float_of_Z (10 ^ 308)]>
          (<["dfm_en_us_official" := float_of_Z (10 ^ 308)]> ∅)).

(** A [validate_locale] that accepts every locale. *)
Definition accept_all (locale : string) : result unit := OK tt.

End StandardsSpec.

Module ExternalDataSpec.
Import ExternalData.

(** The undecorated body of [download] for each data source. *)
Definition download_body (E : env) (d : ExternalData) (location : string)
    : world → result unit * world :=
  match d with
  | WebData source_url => WebData_download_body E source_url location
  | SecretWebData source_url header secret =>
      SecretWebData_download_body E source_url header secret location
  | GDriveData data_source file_path =>
      GDriveData_download_body E data_source file_path location
  | LocalData path => LocalData_download_body E path location
  end.

(** The waits between the five attempts of a decorated [download]. *)
Definition backoff (d : ExternalData) : list Z :=
  match d with
  | GDriveData _ _ => [15; 15; 15; 24]%Z
  | _ => [1; 2; 4; 8]%Z
  end.

(** The specification's reading of the retry policy: a [download] reports
    a failure only after five attempts. *)
Definition retried_as_specified (E : env) (d : ExternalData) : Prop :=
  ∀ location w e w',
    download E d location w = (Raise e, w') → entered w' = entered w + 5.

(** The secret has no usable value: [not self.secret.value]. *)
Definition value_absent (s : Secret) : Prop :=
  value s = None ∨ value s = Some EmptyString.


(** Why a [SecretWebData.download] failed with [e]; [last] is the number
    of the last request sent, when one was. *)
Inductive failure_cause (E : env) (source_url header : string)
    (secret : option Secret) (location : string) (last : nat) (e : exn) : Prop :=
| no_header :
    header = EmptyString →
    e = ValueError ("Secret data for " +:+ source_url +:+ " needs a header") →
    failure_cause E source_url header secret location last e
| no_secret :
    header ≠ EmptyString → secret = None →
    e = ValueError ("Secret data for " +:+ source_url +:+ " needs a secret") →
    failure_cause E source_url header secret location last e
| no_value s :
    header ≠ EmptyString → secret = Some s → value_absent s →
    e = MissingSecretValues [description s] →
    failure_cause E source_url header secret location last e
| request_raised s v :
    header ≠ EmptyString → secret = Some s → value s = Some v → v ≠ EmptyString →
    requests_get E last source_url (header, v) = Raise e →
    failure_cause E source_url header secret location last e
| response_not_ok s v resp :
    header ≠ EmptyString → secret = Some s → value s = Some v → v ≠ EmptyString →
    requests_get E last source_url (header, v) = OK resp →
    (400 ≤ status_code resp < 600)%Z →
    e = RuntimeError ("failed to fetch " +:+ source_url +:+ ": " +:+
                      pretty (status_code resp) +:+ ": " +:+ text resp) →
    failure_cause E source_url header secret location last e
| write_failed s v resp :
    header ≠ EmptyString → secret = Some s → value s = Some v → v ≠ EmptyString →
    requests_get E last source_url (header, v) = OK resp →
    ¬ (400 ≤ status_code resp < 600)%Z →
    (open_write E (S last) location (content resp) = NotOpened e ∨
     ∃ partial, open_write E (S last) location (content resp) = Truncated e partial) →
    failure_cause E source_url header secret location last e.


(** An outside world where nothing can be reached. *)
Definition offline : env :=
  {| urlretrieve := fun _ _ => Raise (ConnectionError "unreachable");
     urlretrieve_remains := fun _ _ => None;
     requests_get := fun _ _ _ => Raise (ConnectionError "unreachable");
     open_write := fun _ _ _ => Written;
     gdown_download_folder := fun _ _ => Raise (ConnectionError "unreachable");
     gdown_download := fun _ _ => Raise (ConnectionError "unreachable");
     shutil_copy := fun _ path _ => NotCopied (FileNotFoundError path) None |}.


(** A server that answers every GET with 503. *)
Definition unavailable : env :=
  {| urlretrieve := fun _ _ => Raise (ConnectionError "unreachable");
     urlretrieve_remains := fun _ _ => None;
     requests_get := fun _ _ _ => OK (mkResponse 503 EmptyString "busy");
     open_write := fun _ _ _ => Written;
     gdown_download_folder := fun _ _ => Raise (ConnectionError "unreachable");
     gdown_download := fun _ _ => Raise (ConnectionError "unreachable");
     shutil_copy := fun _ path _ => NotCopied (FileNotFoundError path) None |}.

Definition fresh : world := mkWorld ∅ 0 [] 0.

Definition api_key (v : option string) : Secret :=
  mkSecret v (mkSecretDescription "vendor" "api_key" "See the vendor console").

End ExternalDataSpec.

Module AdapterSpec.

(** The vendor's candidate carries the text [t] where the adapter looks
    for it: its content has a list ["parts"] whose first item is a
    dictionary with the string [t] under ["text"]. *)
Definition has_text (c : GoogleGenAi.Candidate) (t : string) : Prop :=
  ∃ part rest,
    dict_get "parts" (GoogleGenAi.content c) = Some (PList (PDict part :: rest)) ∧
    dict_get "text" part = Some (PStr t).

(** The specification's invariant on [SUTResponse]: a response that
    [translate_response] returns has at least one completion. *)
Definition completions_nonempty_as_specified
    (request : GoogleGenAi.GoogleGenAiRequest)
    (response : GoogleGenAi.GoogleGenAiResponse) : Prop :=
  ∀ r, GoogleGenAi.translate_response request response = OK r →
       SUT.completions r ≠ [].

(** The dictionary [payload] carries the option [o] under the key [k]: the
    value when the option is set, no entry at all when it is unset. *)
Definition sends (payload : list (string * pyval)) (k : string) (o : option pyval)
    : Prop :=
  match o with
  | Some v => dict_get k payload = Some v
  | None => k ∉ dict_keys payload
  end.

(** The specification's reading of [HuggingFaceSUT.evaluate]: whenever the
    endpoint answers with a status other than 200, the call raises. *)
Definition raises_unless_200
    (requests_post : nat → string → list (string * string) →
                     list (string * pyval) → result HuggingFace.Response)
    (self : HuggingFace.HuggingFaceSUT)
    (request : HuggingFace.HuggingFaceChatRequest) (w : HuggingFace.world) : Prop :=
  ∀ headers payload response,
    requests_post (length (HuggingFace.posted w)) (HuggingFace.api_url self)
                  headers payload = OK response →
    HuggingFace.status_code response ≠ 200%Z →
    ∃ e, (HuggingFace.evaluate requests_post self request w).1 = Raise e.

(** A Gemini answer without candidates, as sent for a blocked prompt. *)
Definition no_candidates : GoogleGenAi.GoogleGenAiResponse :=
  GoogleGenAi.mkGoogleGenAiResponse [] [].

Definition bare_prompt : Prompt.TextPrompt :=
  Prompt.mkTextPrompt "Hello" (Prompt.mkSUTOptions None None None None None None None).

(** A vendor that answers every call, without candidates. *)
Definition echo (n : nat) (client : GoogleGenAi.GenerativeModel)
    (kwargs : list (string * pyval)) : result pyval :=
  OK (PDict [("candidates", PList []); ("usage_metadata", PDict [])]).

Definition reject (d : pyval) : result GoogleGenAi.GoogleGenAiResponse :=
  Raise ValidationError.

Definition gemini : GoogleGenAi.GoogleGenAiSUT :=
  GoogleGenAi.mkGoogleGenAiSUT "gemini-1.5-flash" "gemini-1.5-flash" None.

(** An endpoint that answers every POST with 201 and a well-formed body. *)
Definition created_endpoint (n : nat) (url : string) (headers : list (string * string))
    (payload : list (string * pyval)) : result HuggingFace.Response :=
  OK (HuggingFace.mkResponse 201
        (OK (PList [PDict [("generated_text", PStr "hello")]]))
        "body" []).

Definition olmo : HuggingFace.HuggingFaceSUT :=
  HuggingFace.mkHuggingFaceSUT "olmo-7b-0724-instruct-hf" "hf_token"
    "https://flakwttqzmq493dw.us-east-1.aws.endpoints.huggingface.cloud".

End AdapterSpec.

Module ExternalDataFixtures.
Import ExternalData.

(** A web server that cannot be reached at the first call, breaks off the
    second after two characters, and then serves the file. *)
Definition flaky : env :=
  {| urlretrieve := fun n _ =>
       if n <? 2 then Raise (ConnectionError "timed out") else OK "rows";
     urlretrieve_remains := fun n _ => if n =? 1 then Some "ro" else None;
     requests_get := fun _ _ _ => Raise (ConnectionError "unreachable");
     open_write := fun _ _ _ => Written;
     gdown_download_folder := fun _ _ => Raise (ConnectionError "unreachable");
     gdown_download := fun _ _ => Raise (ConnectionError "unreachable");
     shutil_copy := fun _ path _ => NotCopied (FileNotFoundError path) None |}.

(** A shared folder with three files, two of them under the same path. *)
Definition drive : env :=
  {| urlretrieve := fun _ _ => Raise (ConnectionError "unreachable");
     urlretrieve_remains := fun _ _ => None;
     requests_get := fun _ _ _ => Raise (ConnectionError "unreachable");
     open_write := fun _ _ _ => Written;
     gdown_download_folder := fun _ _ =>
       OK [mkGFile "id-1" "readme.txt"; mkGFile "id-2" "prompts.csv";
           mkGFile "id-3" "prompts.csv"];
     gdown_download := fun _ id => OK ("content of " +:+ id);
     shutil_copy := fun _ path _ => NotCopied (FileNotFoundError path) None |}.

(** A server whose answers are 500 four times and then 503, and a disk
    on which the write after an answer would be cut short. *)
Definition failing_then_busy : env :=
  {| urlretrieve := fun _ _ => Raise (ConnectionError "unreachable");
     urlretrieve_remains := fun _ _ => None;
     requests_get := fun n _ _ =>
       if n <? 4 then OK (mkResponse 500 EmptyString "error")
       else OK (mkResponse 503 EmptyString "busy");
     open_write := fun _ _ _ => Truncated (OSError "No space left on device") "ca";
     gdown_download_folder := fun _ _ => Raise (ConnectionError "unreachable");
     gdown_download := fun _ _ => Raise (ConnectionError "unreachable");
     shutil_copy := fun _ path _ => NotCopied (FileNotFoundError path) None |}.

End ExternalDataFixtures.

Module AdapterFixtures.

(** Why the Google adapter finds no text in a candidate, and the exception
    that Python raises for it. *)
Inductive lacks_text (c : GoogleGenAi.Candidate) : exn → Prop :=
| no_parts :
    dict_get "parts" (GoogleGenAi.content c) = None →
    lacks_text c (KeyError "parts")
| empty_parts :
    dict_get "parts" (GoogleGenAi.content c) = Some (PList []) →
    lacks_text c IndexError
| no_text part rest :
    dict_get "parts" (GoogleGenAi.content c) = Some (PList (PDict part :: rest)) →
    dict_get "text" part = None →
    lacks_text c (KeyError "text")
| text_not_str part rest v :
    dict_get "parts" (GoogleGenAi.content c) = Some (PList (PDict part :: rest)) →
    dict_get "text" part = Some v →
    (∀ s, v ≠ PStr s) →
    lacks_text c ValidationError.

(** The headers of every POST of the Hugging Face adapter. *)
Definition bearer_headers (token : string) : list (string * string) :=
  [ ("Accept", "application/json");
    ("Authorization", "Bearer " +:+ token);
    ("Content-Type", "application/json") ].

(** A candidate as Gemini sends it, with one text part. *)
Definition candidate_saying (t : string) : GoogleGenAi.Candidate :=
  GoogleGenAi.mkCandidate
    [("parts", PList [PDict [("text", PStr t)]]); ("role", PStr "model")] 1.

(** The validation done by the constructor [GoogleGenAiResponse] on a
    dictionary whose values have the declared types: [candidates] a list
    of dictionaries with a dictionary [content] and an integer
    [finish_reason], and [usage_metadata] a dictionary; other keys are
    ignored.  Values of another type are rejected here (the coercions of
    pydantic, such as a numeric string for an integer, are left out). *)
Definition validate_candidate (v : pyval) : result GoogleGenAi.Candidate :=
  match v with
  | PDict fields =>
      match dict_get "content" fields, dict_get "finish_reason" fields with
      | Some (PDict content), Some (PInt reason) =>
          OK (GoogleGenAi.mkCandidate content reason)
      | _, _ => Raise ValidationError
      end
  | _ => Raise ValidationError
  end.

Definition validate_typed (d : pyval) : result GoogleGenAi.GoogleGenAiResponse :=
  match d with
  | PDict fields =>
      match dict_get "candidates" fields, dict_get "usage_metadata" fields with
      | Some (PList cs), Some (PDict usage) =>
          candidates <- mapM validate_candidate cs ;;;
          OK (GoogleGenAi.mkGoogleGenAiResponse candidates usage)
      | _, _ => Raise ValidationError
      end
  | _ => Raise TypeError
  end.

(** A candidate as [to_dict()] gives it. *)
Definition candidate_dict (t : string) : pyval :=
  PDict [("content",
          PDict [("parts", PList [PDict [("text", PStr t)]]); ("role", PStr "model")]);
         ("finish_reason", PInt 1)].

(** A vendor that answers every call with two candidates. *)
Definition greeting (n : nat) (client : GoogleGenAi.GenerativeModel)
    (kwargs : list (string * pyval)) : result pyval :=
  OK (PDict [("candidates", PList [candidate_dict "Hi"; candidate_dict "Bye"]);
             ("usage_metadata", PDict [])]).

(** A candidate whose content was filtered: no parts at all. *)
Definition blocked_candidate : GoogleGenAi.Candidate :=
  GoogleGenAi.mkCandidate [("role", PStr "model")] 3.

(** An endpoint that answers every POST with 200 and one generated text. *)
Definition serving (n : nat) (url : string) (headers : list (string * string))
    (payload : list (string * pyval)) : result HuggingFace.Response :=
  OK (HuggingFace.mkResponse 200
        (OK (PList [PDict [("generated_text", PStr "Hi there")]])) "body" []).

(** An endpoint that answers every POST with 503. *)
Definition overloaded (n : nat) (url : string) (headers : list (string * string))
    (payload : list (string * pyval)) : result HuggingFace.Response :=
  OK (HuggingFace.mkResponse 503 (Raise JSONDecodeError) "busy" []).

(** What the body of the [try] block of [HuggingFaceSUT.evaluate] gives
    for a response. *)
Definition parsed (response : HuggingFace.Response)
    : result HuggingFace.HuggingFaceResponse :=
  _ <- (if negb (HuggingFace.status_code response =? 200)%Z
        then HuggingFace.raise_for_status response else OK tt) ;;;
  body <- HuggingFace.json response ;;;
  response_json <- subscript_int body 0 ;;;
  HuggingFace.make_HuggingFaceResponse response_json.

Definition verbose_prompt : Prompt.TextPrompt :=
  Prompt.mkTextPrompt "Hello"
    (Prompt.mkSUTOptions (Some ["END"]) (Some 100%Z) None (Some (Q2Qc (9 # 10)))
                         (Some 40%Z) None None).

Definition plain_prompt : Prompt.TextPrompt :=
  Prompt.mkTextPrompt "Hello"
    (Prompt.mkSUTOptions None (Some 100%Z) None None None None None).

End AdapterFixtures.

(** * Properties *)

(** ** Strings *)

Lemma append_assoc (a b c : string) : (a +:+ b) +:+ c = a +:+ b +:+ c.
Proof.
  induction a as [|x a IH]; [done |].
  change (String x ((a +:+ b) +:+ c) = String x (a +:+ b +:+ c)). by rewrite IH.
Qed.

Lemma startswith_occurs needle hay :
  startswith needle hay = true ↔ ∃ after, hay = needle +:+ after.
Proof.
  revert hay. induction needle as [|a n IH]; intros hay; simpl.
  - split; [intros _; by exists hay | done].
  - destruct hay as [|b h].
    + split; [done | intros [after H]; discriminate H].
    + destruct (decide (a = b)) as [->|Hne].
      * rewrite IH. split; intros [after H]; exists after.
        -- by rewrite H.
        -- by injection H.
      * split; [done | intros [after H]; injection H; congruence].
Qed.

Lemma contains_occurs needle hay :
  contains needle hay = true ↔ StandardsSpec.occurs_in needle hay.
Proof.
  unfold StandardsSpec.occurs_in.
  induction hay as [|b h IH]; simpl.
  - destruct (startswith needle EmptyString) eqn:Hs.
    + apply startswith_occurs in Hs as [after H].
      split; [intros _; exists EmptyString, after; done | done].
    + split; [done |]. intros ([|c before] & after & H).
      * assert (startswith needle EmptyString = true) as Hs'
          by (apply startswith_occurs; eauto).
        congruence.
      * discriminate H.
  - destruct (startswith needle (String b h)) eqn:Hs.
    + apply startswith_occurs in Hs as [after H].
      split; [intros _; exists EmptyString, after; done | done].
    + rewrite IH. split.
      * intros (before & after & ->). by exists (String b before), after.
      * intros ([|c before] & after & H).
        -- assert (startswith needle (String b h) = true) as Hs'
             by (apply startswith_occurs; eauto).
           congruence.
        -- injection H as -> ->. eauto.
Qed.

(** ** Standards store *)

Module StandardsProps.
Import Standards StandardsSpec.

Lemma existsb_is_nan (values : list float64) :
  existsb is_nan values = true ↔ S754_nan ∈ values.
Proof.
  rewrite existsb_exists. split.
  - intros (v & Hin & Hv). apply list_elem_of_In in Hin. by destruct v.
  - intros Hin. exists S754_nan. by rewrite <- list_elem_of_In.
Qed.

Lemma existsb_is_inf (s : bool) (values : list float64) :
  existsb (is_inf s) values = true ↔ S754_infinity s ∈ values.
Proof.
  rewrite existsb_exists. split.
  - intros (v & Hin & Hv). apply list_elem_of_In in Hin.
    destruct v as [| s' | |]; try done. simpl in Hv.
    apply Bool.eqb_prop in Hv. by subst.
  - intros Hin. exists (S754_infinity s). rewrite <- list_elem_of_In.
    split; [done |]. simpl. by destruct s.
Qed.

Lemma all_finite (values : list float64) :
  existsb is_nan values = false →
  existsb (is_inf false) values = false →
  existsb (is_inf true) values = false →
  ∀ v, v ∈ values → is_finite v = true.
Proof.
  intros Hnan Hpos Hneg v Hin.
  destruct v as [| s | |]; try done.
  - destruct s.
    + apply existsb_is_inf in Hin. congruence.
    + apply existsb_is_inf in Hin. congruence.
  - apply existsb_is_nan in Hin. congruence.
Qed.

Lemma fsum_spec (values : list float64) :
  match fsum values with
  | OK t =>
      ((∀ v, v ∈ values → is_finite v = true) ∧
       t = binary_normalize prec emax (exact_sum values) (-1074) false) ∨
      (S754_nan ∈ values ∧
       ¬ (S754_infinity false ∈ values ∧ S754_infinity true ∈ values) ∧
       t = S754_nan) ∨
      (∃ s, S754_infinity s ∈ values ∧ (S754_infinity (negb s) ∉ values) ∧
            (S754_nan ∉ values) ∧ t = S754_infinity s)
  | Raise e =>
      (S754_infinity false ∈ values ∧ S754_infinity true ∈ values ∧
       e = ValueError "-inf + inf in fsum") ∨
      ((∀ v, v ∈ values → is_finite v = true) ∧
       is_finite (binary_normalize prec emax (exact_sum values) (-1074) false)
       = false ∧
       e = OverflowError "intermediate overflow in fsum")
  end.
Proof.
  unfold fsum.
  destruct (existsb (is_inf false) values) eqn:Hpos;
    destruct (existsb (is_inf true) values) eqn:Hneg;
    destruct (existsb is_nan values) eqn:Hnan; simpl;
    try (left; split; [by apply existsb_is_inf |];
         split; [by apply existsb_is_inf | done]).
  - right; left. split; [by apply existsb_is_nan |]. split; [| done].
    intros [_ H]. apply existsb_is_inf in H. congruence.
  - right; right. exists false. split; [by apply existsb_is_inf |].
    split; [intros H; apply existsb_is_inf in H; simpl in H; congruence |].
    split; [intros H; apply existsb_is_nan in H; congruence | done].
  - right; left. split; [by apply existsb_is_nan |]. split; [| done].
    intros [H _]. apply existsb_is_inf in H. congruence.
  - right; right. exists true. split; [by apply existsb_is_inf |].
    split; [intros H; apply existsb_is_inf in H; simpl in H; congruence |].
    split; [intros H; apply existsb_is_nan in H; congruence | done].
  - right; left. split; [by apply existsb_is_nan |]. split; [| done].
    intros [H _]. apply existsb_is_inf in H. congruence.
  - pose proof (all_finite values Hnan Hpos Hneg) as Hfin.
    destruct (is_finite (binary_normalize _ _ _ _ _)) eqn:Ht.
    + by left.
    + right. done.
Qed.

(** [fmean] on a non-empty list returns what [is_fmean_of] describes, or
    raises for one of the causes of [fmean_raises]. *)
Lemma fmean_spec (values : list float64) :
  values ≠ [] →
  match fmean values with
  | OK r => is_fmean_of values r
  | Raise e => fmean_raises values e
  end.
Proof.
  intros Hne. pose proof (fsum_spec values) as Hsum.
  assert (fmean values
          = (total <- fsum values ;;;
             if is_finite (float_of_Z (Z.of_nat (length values)))
             then OK (float_div total (float_of_Z (Z.of_nat (length values))))
             else Raise (OverflowError "int too large to convert to float")))
    as -> by (by destruct values).
  destruct (fsum values) as [t|e]; simpl.
  - destruct (is_finite (float_of_Z (Z.of_nat (length values)))) eqn:Hn;
      [| by apply count_overflows].
    destruct Hsum as [[Hfin ->]|[(Hnan & Hboth & ->)|(s & Hs & Hopp & Hnan & ->)]].
    + by apply fmean_finite.
    + by apply fmean_nan.
    + by apply fmean_infinite.
  - destruct Hsum as [(Hp & Hn & ->)|(Hfin & Ht & ->)].
    + by apply both_infinities.
    + by apply sum_overflows.
Qed.


Lemma elem_of_matching_items self locale k v :
  (k, v) ∈ matching_items self locale ↔
  reference_standards self !! k = Some v ∧ occurs_in locale k.
Proof.
  unfold matching_items. rewrite list_elem_of_filter, elem_of_map_to_list. simpl.
  rewrite contains_occurs. tauto.
Qed.

(** C3: [reference_standard_for] returns the stored value exactly when the
    name is a key of the reference standards, and otherwise (and only
    then) raises an error whose message tells to run the calibration. *)
Theorem reference_standard_for_spec (self : data) (name : string) :
  (name ∈ dom (reference_standards self) ↔
     ∃ v, reference_standards self !! name = Some v ∧
          reference_standard_for self name = OK v) ∧
  (name ∉ dom (reference_standards self) ↔
     reference_standard_for self name = Raise (ValueError (recalibrate_message name))) ∧
  ((∃ e, reference_standard_for self name = Raise e) ↔
     name ∉ dom (reference_standards self)) ∧
  occurs_in "Run `modelbench calibrate --update`" (recalibrate_message name).
Proof.
  assert (occurs_in "Run `modelbench calibrate --update`" (recalibrate_message name))
    as Hmsg.
  { exists ("No standard yet for " +:+ name +:+ ". "), " to add one.".
    unfold recalibrate_message. rewrite !append_assoc. reflexivity. }
  rewrite not_elem_of_dom, elem_of_dom.
  unfold reference_standard_for, is_Some. fold (recalibrate_message name).
  destruct (reference_standards self !! name) as [v|] eqn:Hl;
    repeat split; try done; try (intros [? ?]; done); eauto.
  intros (? & ? & ?); done.
Qed.




Lemma scenario_raises (validate_locale : string → result unit) :
  ∃ e, average_standard_across_references validate_locale scenario "en_US" "1.0"
       = Raise e.
Proof.
  unfold average_standard_across_references.
  change (lower "en_US") with "en_us". simpl.
  destruct (validate_locale "en_us") as [[]|e]; simpl; [| eauto].
  vm_compute. eauto.
Qed.


(** C2, as stated, fails: with the keys of the scenario the call raises,
    whatever [validate_locale] does. *)
Lemma scenario_average_not_seven_tenths :
  ¬ ∃ validate_locale,
      average_standard_across_references validate_locale scenario "en_US" "1.0"
      = OK (ratio 7 10).
Proof.
  intros (validate_locale & H).
  destruct (scenario_raises validate_locale) as [e He]. congruence.
Qed.

(** C2 (amended): when the keys carry the locale in lower case, the call of
    the scenario returns 0.7; with the keys as the specification writes
    them it raises "No reference values found". *)
Theorem scenario_lower_average (validate_locale : string → result unit) :
  validate_locale "en_us" = OK tt →
  average_standard_across_references validate_locale scenario_lower "en_US" "1.0"
  = OK (ratio 7 10) ∧
  average_standard_across_references validate_locale scenario "en_US" "1.0"
  = Raise (AssertionError "No reference values found").
Proof.
  intros Hok. unfold average_standard_across_references.
  change (lower "en_US") with "en_us". simpl. rewrite Hok. simpl. split.
  - let items := eval vm_compute in (matching_items scenario_lower "en_us") in
    change (matching_items scenario_lower "en_us") with items.
    by vm_compute.
  - by vm_compute.
Qed.

Lemma scenario_lower_average_witness :
  accept_all "en_us" = OK tt ∧
  average_standard_across_references accept_all scenario_lower "en_US" "1.0"
  = OK (ratio 7 10) ∧
  average_standard_across_references accept_all scenario "en_US" "1.0"
  = Raise (AssertionError "No reference values found").
Proof.
  split; [reflexivity |]. apply (scenario_lower_average accept_all). reflexivity.
Defined.

(** C10, as stated, fails: for a version other than 1.0 the empty locale is
    never looked at, the assertion on the version fails first. *)
Lemma empty_locale_as_specified_fails :
  ¬ ∃ validate_locale self, empty_locale_as_specified validate_locale self "2.0".
Proof. intros (validate_locale & self & msg & H). discriminate H. Qed.

(** C10 (amended): with the empty locale the call raises for every version
    and every standards mapping, before any key is looked at: [ValueError]
    at version 1.0, the assertion error on the version otherwise; it never
    returns a mean. *)
Theorem empty_locale_raises
    (validate_locale : string → result unit) (self : data) (version : string) :
  (version = "1.0" →
     average_standard_across_references validate_locale self EmptyString version
     = Raise (ValueError "Locale is required for v1.0 scoring.")) ∧
  (version ≠ "1.0" →
     average_standard_across_references validate_locale self EmptyString version
     = Raise (AssertionError "Only version 1.0 is supported.")) ∧
  (∀ r, average_standard_across_references validate_locale self EmptyString version ≠ OK r).
Proof.
  unfold average_standard_across_references.
  destruct (String.eqb_spec version "1.0") as [->|Hne]; simpl;
    repeat split; try done.
Qed.

Lemma empty_locale_raises_witness :
  "1.0" = "1.0" ∧
  average_standard_across_references accept_all scenario EmptyString "1.0"
  = Raise (ValueError "Locale is required for v1.0 scoring.").
Proof.
  split; [reflexivity |].
  apply (empty_locale_raises accept_all scenario "1.0"). reflexivity.
Defined.

End StandardsProps.

(** ** External data *)

Module ExternalDataProps.
Import ExternalData ExternalDataSpec ExternalDataFixtures.

Lemma wait_exponential_1_1 (n : nat) :
  (n ≤ 4)%nat → wait_exponential 1 1 <$> seq 1 n = take n [1; 2; 4; 8]%Z.
Proof. intros H. do 5 (destruct n as [|n]; [by vm_compute |]). lia. Qed.

Lemma wait_exponential_3_15 (n : nat) :
  (n ≤ 4)%nat → wait_exponential 3 15 <$> seq 1 n = take n [15; 15; 15; 24]%Z.
Proof. intros H. do 5 (destruct n as [|n]; [by vm_compute |]). lia. Qed.

Section Retry.

Variable fn : world → result unit * world.
Variable P : world → Prop.
Hypothesis fn_enters :
  ∀ w r w', fn w = (r, w') → entered w' = S (entered w) ∧ slept w' = slept w.
Hypothesis fn_keeps : ∀ w e w', P w → fn w = (Raise e, w') → P w'.
Hypothesis sleep_keeps : ∀ s w, P w → P (sleep s w).

(** The loop ends with the outcome of its last call of [fn]; it has then
    made [S n] calls and slept the first [n] waits, and a failure is only
    reported when no attempt remains. *)
Lemma retry_loop_spec (wait : nat → Z) (remaining k : nat) (w : world) r w' :
  P w → retry_loop remaining k wait fn w = (r, w') →
  ∃ n w0,
    (n ≤ remaining)%nat ∧ P w0 ∧ fn w0 = (r, w') ∧
    entered w' = entered w + S n ∧
    slept w' = slept w ++ (wait <$> seq k n) ∧
    (∀ e, r = Raise e → n = remaining).
Proof.
  revert k w. induction remaining as [|rem IH]; intros k w HP Hloop; simpl in Hloop.
  - destruct (fn w) as [[a|e] w1] eqn:Hfn; simplify_eq;
      destruct (fn_enters _ _ _ Hfn) as [He Hs];
      exists 0, w; simpl; rewrite app_nil_r;
      repeat split; auto with lia.
  - destruct (fn w) as [[a|e] w1] eqn:Hfn.
    + simplify_eq. destruct (fn_enters _ _ _ Hfn) as [He Hs].
      exists 0, w. simpl. rewrite app_nil_r.
      repeat split; auto with lia. intros e ?; discriminate.
    + destruct (fn_enters _ _ _ Hfn) as [He Hs].
      apply IH in Hloop as (n & w0 & Hn & HP0 & Hfn0 & Hent & Hsl & Hfail);
        [| eauto].
      exists (S n), w0. simpl in Hent, Hsl. rewrite Hs, <- app_assoc in Hsl.
      repeat split; auto with lia.
      intros e' ->. f_equal. eauto.
Qed.

End Retry.

Lemma download_body_enters E d location w r w' :
  download_body E d location w = (r, w') →
  entered w' = S (entered w) ∧ slept w' = slept w.
Proof.
  destruct d; simpl;
    unfold WebData_download_body, SecretWebData_download_body,
           GDriveData_download_body, LocalData_download_body;
    intros H; repeat case_match; simplify_eq; done.
Qed.

Lemma retry_download_body E d location stop wait w r w' :
  retry stop wait (download_body E d location) w = (r, w') →
  ∃ n w0,
    (n ≤ stop - 1)%nat ∧ download_body E d location w0 = (r, w') ∧
    entered w' = entered w + S n ∧
    slept w' = slept w ++ (wait <$> seq 1 n) ∧
    (∀ e, r = Raise e → n = stop - 1).
Proof.
  intros H.
  apply (retry_loop_spec _ (fun _ => True)) in H
    as (n & w0 & Hn & _ & Hfn & Hent & Hsl & Hfail); try done.
  - by exists n, w0.
  - apply download_body_enters.
Qed.

(** C5 (amended): [download] of a [WebData], [SecretWebData] or
    [GDriveData] makes at most five attempts, sleeps the exponential waits
    between them, and reports a failure only after the fifth attempt, the
    exception being the one that attempt raised; [LocalData.download] is
    not decorated: it makes one attempt and never sleeps. *)
Theorem download_retry_policy (E : env) (d : ExternalData) (location : string)
    (w : world) (r : result unit) (w' : world) :
  download E d location w = (r, w') →
  ∃ n w0,
    download_body E d location w0 = (r, w') ∧
    entered w' = entered w + S n ∧
    match d with
    | LocalData _ => n = 0 ∧ slept w' = slept w
    | _ => (n ≤ 4)%nat ∧ slept w' = slept w ++ take n (backoff d) ∧
           (∀ e, r = Raise e → n = 4)
    end.
Proof.
  intros H.
  destruct d as [url|url header secret|source file|path]; simpl in H.
  - apply (retry_download_body E (WebData url)) in H
      as (n & w0 & Hn & Hfn & Hent & Hsl & Hfail).
    exists n, w0. simpl in Hn. by rewrite Hsl, wait_exponential_1_1.
  - apply (retry_download_body E (SecretWebData url header secret)) in H
      as (n & w0 & Hn & Hfn & Hent & Hsl & Hfail).
    exists n, w0. simpl in Hn. by rewrite Hsl, wait_exponential_1_1.
  - apply (retry_download_body E (GDriveData source file)) in H
      as (n & w0 & Hn & Hfn & Hent & Hsl & Hfail).
    exists n, w0. simpl in Hn. by rewrite Hsl, wait_exponential_3_15.
  - exists 0, w. split; [done |].
    destruct (download_body_enters E (LocalData path) location _ _ _ H) as [-> ->].
    split; [lia | done].
Qed.

Lemma download_retry_policy_witness :
  download offline (WebData "https://example.org/corpus.csv") "corpus.csv" fresh
  = (Raise (ConnectionError "unreachable"), mkWorld ∅ 5 [1; 2; 4; 8]%Z 5) ∧
  ∃ n w0,
    download_body offline (WebData "https://example.org/corpus.csv") "corpus.csv" w0
    = (Raise (ConnectionError "unreachable"), mkWorld ∅ 5 [1; 2; 4; 8]%Z 5) ∧
    5 = 0 + S n ∧
    (n ≤ 4)%nat ∧ [1; 2; 4; 8]%Z = [] ++ take n [1; 2; 4; 8]%Z ∧
    (∀ e, Raise (ConnectionError "unreachable") = @Raise unit e → n = 4).
Proof.
  split; [reflexivity |].
  apply (download_retry_policy offline (WebData "https://example.org/corpus.csv")
           "corpus.csv" fresh).
  reflexivity.
Defined.

(** C5, as stated, fails for [LocalData]: a missing file is reported after
    a single attempt. *)
Lemma local_data_not_retried :
  ¬ ∀ E d, retried_as_specified E d.
Proof.
  intros H.
  specialize (H offline (LocalData "corpus.csv") "copy.csv" fresh
                (FileNotFoundError "corpus.csv") (mkWorld ∅ 1 [] 1)).
  simpl in H. specialize (H eq_refl). discriminate H.
Qed.








(** On the run of the witness the cause is pinned to the last answer: the
    error of the four answers before it is not a cause of the failure. *)
Lemma earlier_status_is_no_cause :
  ¬ failure_cause failing_then_busy "https://example.org/data" "X-Api-Key"
      (Some (api_key (Some "s3cret"))) "data.bin" 4
      (RuntimeError "failed to fetch https://example.org/data: 500: error").
Proof.
  intros [?|?|?|s v Hh Hs Hv Hne Hget|s v resp Hh Hs Hv Hne Hget Hst He
          |s v resp Hh Hs Hv Hne Hget Hst Hw]; try done.
  - vm_compute in Hget. by simplify_eq.
  - vm_compute in Hget. simplify_eq. simpl in Hst. lia.
Qed.


(** With an empty header the missing value is not what is reported. *)
Lemma secret_download_header_first :
  (download offline (SecretWebData "https://example.org/data" EmptyString (Some (api_key None)))
     "data.bin" fresh).1
  = Raise (ValueError "Secret data for https://example.org/data needs a header").
Proof. reflexivity. Qed.

End ExternalDataProps.

(** ** SUT adapters *)

Module AdapterProps.
Import AdapterSpec.

Lemma mentions_None_strings (l : list string) :
  existsb mentions_None (PStr <$> l) = false.
Proof. induction l as [|s l IH]; [done | by simpl]. Qed.

(** One candidate: the completion built from it carries the text found
    under [parts], first item, [text]; anything else raises. *)
Lemma candidate_completion (c : GoogleGenAi.Candidate) :
  match t <- GoogleGenAi.candidate_text c ;;; SUT.make_SUTCompletion t with
  | OK completion => has_text c (SUT.text completion)
  | Raise _ => ¬ ∃ t, has_text c t
  end.
Proof.
  unfold GoogleGenAi.candidate_text, has_text. simpl.
  destruct (dict_get "parts" (GoogleGenAi.content c)) as [parts|] eqn:Hp; simpl;
    [| intros (t & part & rest & H & _); discriminate H].
  destruct parts as [| | | |s|items|]; simpl;
    try (intros (t & part & rest & H & _); discriminate H).
  { destruct s; simpl; intros (t & part & rest & H & _); discriminate H. }
  destruct items as [|part rest]; simpl;
    [intros (t & part & rest & H & _); discriminate H |].
  destruct part as [| | | | | |part]; simpl;
    try (intros (t & part' & rest' & H & _); discriminate H).
  destruct (dict_get "text" part) as [v|] eqn:Ht; simpl;
    [| intros (t & part' & rest' & H & Ht'); congruence].
  destruct v; simpl;
    try (intros (t & part' & rest' & H & Ht'); congruence).
  exists part, rest. done.
Qed.

(** C4 (amended): [translate_response] returns one completion for each
    candidate of the vendor's answer, carrying exactly the text found in
    it: always one for Hugging Face, as many as there are candidates for
    Google, so none when the answer has no candidate; the Google adapter
    raises when some candidate does not carry a text where it looks. *)
Theorem translate_response_spec :
  (∀ request response,
     SUT.completions (HuggingFace.translate_response request response)
     = [SUT.mkSUTCompletion (HuggingFace.generated_text response)]) ∧
  (∀ request response,
     match GoogleGenAi.translate_response request response with
     | OK r =>
         length (SUT.completions r) = length (GoogleGenAi.candidates response) ∧
         Forall2 (fun c completion => has_text c (SUT.text completion))
                 (GoogleGenAi.candidates response) (SUT.completions r)
     | Raise _ =>
         ∃ c, c ∈ GoogleGenAi.candidates response ∧ ¬ ∃ t, has_text c t
     end).
Proof.
  split; [done |]. intros request response.
  unfold GoogleGenAi.translate_response.
  induction (GoogleGenAi.candidates response) as [|c cs IH]; simpl.
  - split; [done | constructor].
  - pose proof (candidate_completion c) as Hc.
    destruct (t <- GoogleGenAi.candidate_text c ;;; SUT.make_SUTCompletion t)
      as [completion|e]; simpl.
    + destruct (mapM _ cs) as [completions|e]; simpl in *.
      * destruct IH as [Hlen Hall]. split; [by rewrite Hlen | by constructor].
      * destruct IH as (c' & Hin & Hno). exists c'. split; [by right | done].
    + exists c. split; [by left | done].
Qed.

(** C4, as stated, fails: an answer without candidates is translated to a
    response without completions, and nothing is raised. *)
Lemma completions_nonempty_as_specified_fails :
  ¬ completions_nonempty_as_specified
      (GoogleGenAi.translate_text_prompt bare_prompt) no_candidates.
Proof. intros H. by apply (H (SUT.mkSUTResponse [])). Qed.


Ltac absent_key :=
  let H := fresh in
  intros H; unfold dict_keys in H; simpl in H;
  repeat (apply elem_of_cons in H as [H|H]; [discriminate H |]);
  by apply elem_of_nil in H.

(** C7: whatever the options of the prompt, the payload that [evaluate]
    hands to the vendor carries each option that is set under its key and
    has no entry for an option that is unset; no [None] occurs in it.  This
    holds for the Google and for the Hugging Face adapter. *)
Theorem unset_options_omitted (prompt : Prompt.TextPrompt) :
  let o := Prompt.options prompt in
  (∀ generate_content validate_response self w,
     ∃ client config,
       GoogleGenAi.sent
         (GoogleGenAi.evaluate generate_content validate_response self
            (GoogleGenAi.translate_text_prompt prompt) w).2
       = GoogleGenAi.sent w ++
         [(client, [("contents", PStr (Prompt.text prompt));
                    ("generation_config", PDict config)])] ∧
       sends config "stop_sequences"
             ((fun l => PList (PStr <$> l)) <$> Prompt.stop_sequences o) ∧
       sends config "max_output_tokens" (PInt <$> Prompt.max_tokens o) ∧
       sends config "temperature" (PFloat <$> Prompt.temperature o) ∧
       sends config "top_p" (PFloat <$> Prompt.top_p o) ∧
       sends config "top_k" (PInt <$> Prompt.top_k_per_token o) ∧
       sends config "presence_penalty" (PFloat <$> Prompt.presence_penalty o) ∧
       sends config "frequency_penalty" (PFloat <$> Prompt.frequency_penalty o) ∧
       mentions_None (PDict config) = false) ∧
  (∀ requests_post self w,
     ∃ headers params,
       HuggingFace.posted
         (HuggingFace.evaluate requests_post self
            (HuggingFace.translate_text_prompt prompt) w).2
       = HuggingFace.posted w ++
         [(HuggingFace.api_url self, headers,
           [("inputs", PStr (Prompt.text prompt)); ("parameters", PDict params)])] ∧
       sends params "max_new_tokens" (PInt <$> Prompt.max_tokens o) ∧
       sends params "temperature" (PFloat <$> Prompt.temperature o) ∧
       mentions_None (PDict params) = false).
Proof.
  destruct prompt as [text [stop max temp top_p top_k presence frequency]].
  simpl. split.
  - intros generate_content validate_response self w.
    unfold GoogleGenAi.evaluate, GoogleGenAi._load_client.
    eexists (match GoogleGenAi.model self with
             | Some c => c
             | None => GoogleGenAi.mkGenerativeModel _ _
             end), _.
    split.
    { destruct (GoogleGenAi.model self); simpl;
        destruct (generate_content _ _ _); reflexivity. }
    destruct stop, max, temp, top_p, top_k, presence, frequency; simpl;
      rewrite ?mentions_None_strings; repeat split; try reflexivity; absent_key.
  - intros requests_post self w. unfold HuggingFace.evaluate.
    eexists _, _. split.
    { destruct (requests_post _ _ _ _) as [response|e]; simpl; [| reflexivity].
      match goal with |- context [match ?x with OK _ => _ | Raise _ => _ end] =>
        destruct x end; reflexivity. }
    destruct max, temp; simpl; repeat split; try reflexivity; absent_key.
Qed.


Section Caching.

Import GoogleGenAi.

Variable generate_content :
  nat → GenerativeModel → list (string * pyval) → result pyval.
Variable validate_response : pyval → result GoogleGenAiResponse.

(** One call: [uid] and [model_name] are kept, the call goes to the cached
    client, which is constructed only when there was none. *)
Lemma evaluate_step self request w r self' w' :
  evaluate generate_content validate_response self request w = (r, self', w') →
  uid self' = uid self ∧ model_name self' = model_name self ∧
  ∃ client kwargs,
    model self' = Some client ∧ sent w' = sent w ++ [(client, kwargs)] ∧
    match model self with
    | Some c => client = c ∧ created w' = created w
    | None => client_model_name client = model_name self ∧
              created w' = created w ++ [client]
    end.
Proof.
  unfold evaluate, _load_client. intros H.
  destruct self as [u name [c|]]; simpl in *;
    destruct (generate_content _ _ _); simplify_eq; simpl;
    repeat split; eexists _, _; repeat split.
Qed.

(** C8: in a run of calls to [evaluate] on one SUT object the client is
    constructed at most once, by the first call and only when none is
    cached; it stays in [model] and every call of the run is sent to it;
    [uid] and [model_name] never change. *)
Theorem evaluate_caches_client self requests w rs self' w' :
  requests ≠ [] →
  evaluate_all generate_content validate_response self requests w = (rs, self', w') →
  uid self' = uid self ∧ model_name self' = model_name self ∧
  ∃ client calls,
    model self' = Some client ∧
    sent w' = sent w ++ calls ∧ length calls = length requests ∧
    Forall (fun call => call.1 = client) calls ∧
    match model self with
    | Some c => client = c ∧ created w' = created w
    | None => client_model_name client = model_name self ∧
              created w' = created w ++ [client]
    end.
Proof.
  revert self w rs self' w'.
  induction requests as [|request requests IH]; [done |].
  intros self w rs self' w' _ H. simpl in H.
  destruct (evaluate _ _ self request w) as [[r self1] w1] eqn:H1.
  destruct (evaluate_all _ _ self1 requests w1) as [[rs' self2] w2] eqn:H2.
  simplify_eq.
  apply evaluate_step in H1
    as (Hu & Hn & client & kwargs & Hm & Hs & Hc).
  destruct requests as [|request' requests].
  - simpl in H2. simplify_eq. repeat split; [done | done |].
    exists client, [(client, kwargs)]. repeat split; try done.
    by constructor.
  - apply IH in H2 as (Hu' & Hn' & client' & calls & Hm' & Hs' & Hl & Hall & Hc');
      [| done].
    rewrite Hm in Hc'. destruct Hc' as [-> Hcr].
    split; [congruence |]. split; [congruence |].
    exists client, ((client, kwargs) :: calls). repeat split.
    + done.
    + by rewrite Hs', Hs, <- app_assoc.
    + simpl. by rewrite Hl.
    + by constructor.
    + destruct (model self); destruct Hc as [? Hcr']; split; congruence.
Qed.

End Caching.

Lemma evaluate_caches_client_witness :
  let requests := [GoogleGenAi.translate_text_prompt bare_prompt;
                   GoogleGenAi.translate_text_prompt bare_prompt] in
  let w := GoogleGenAi.mkWorld [] [] in
  let out := GoogleGenAi.evaluate_all echo reject gemini requests w in
  requests ≠ [] ∧
  GoogleGenAi.uid out.1.2 = GoogleGenAi.uid gemini ∧
  GoogleGenAi.model_name out.1.2 = GoogleGenAi.model_name gemini ∧
  ∃ client calls,
    GoogleGenAi.model out.1.2 = Some client ∧
    GoogleGenAi.sent out.2 = GoogleGenAi.sent w ++ calls ∧
    length calls = length requests ∧
    Forall (fun call => call.1 = client) calls ∧
    match GoogleGenAi.model gemini with
    | Some c => client = c ∧ GoogleGenAi.created out.2 = GoogleGenAi.created w
    | None => GoogleGenAi.client_model_name client = GoogleGenAi.model_name gemini ∧
              GoogleGenAi.created out.2 = GoogleGenAi.created w ++ [client]
    end.
Proof.
  intros requests w out. split; [discriminate |].
  apply (evaluate_caches_client echo reject gemini requests w out.1.1 out.1.2 out.2);
    [discriminate | reflexivity].
Defined.

(** C9: an answer with status 201 and a well-formed body is not an error
    for [raise_for_status]; [evaluate] returns a [HuggingFaceResponse]
    built from it, and prints nothing. *)
Theorem evaluate_returns_on_201 :
  HuggingFace.evaluate created_endpoint olmo
    (HuggingFace.translate_text_prompt bare_prompt) (HuggingFace.mkWorld [] [])
  = (OK (HuggingFace.mkHuggingFaceResponse "hello"),
     HuggingFace.mkWorld
       [("https://flakwttqzmq493dw.us-east-1.aws.endpoints.huggingface.cloud",
         [("Accept", "application/json");
          ("Authorization", "Bearer hf_token");
          ("Content-Type", "application/json")],
         [("inputs", PStr "Hello"); ("parameters", PDict [])])]
       []).
Proof. reflexivity. Qed.

(** The specification's reading of C9 fails on that answer. *)
Lemma raises_unless_200_fails :
  ¬ raises_unless_200 created_endpoint olmo
      (HuggingFace.translate_text_prompt bare_prompt) (HuggingFace.mkWorld [] []).
Proof.
  intros H.
  destruct (H [] [] (HuggingFace.mkResponse 201
                       (OK (PList [PDict [("generated_text", PStr "hello")]]))
                       "body" []) eq_refl) as [e He]; [done |].
  discriminate He.
Qed.

(** For a status from 400 to 599, [evaluate] raises the HTTP error and
    prints the failure. *)
Lemma evaluate_raises_on_error_status requests_post self request w response :
  requests_post (length (HuggingFace.posted w)) (HuggingFace.api_url self)
    [("Accept", "application/json");
     ("Authorization", "Bearer " +:+ HuggingFace.token self);
     ("Content-Type", "application/json")]
    (HuggingFace.model_dump_exclude_none request) = OK response →
  (400 ≤ HuggingFace.status_code response < 600)%Z →
  (HuggingFace.evaluate requests_post self request w).1
  = Raise (HTTPError (HuggingFace.status_code response)).
Proof.
  intros Hpost Hstatus. unfold HuggingFace.evaluate. rewrite Hpost.
  unfold HuggingFace.raise_for_status.
  destruct (Z.eqb_spec (HuggingFace.status_code response) 200) as [Heq|Hne];
    [lia |]. simpl.
  destruct (Z.leb_spec 400 (HuggingFace.status_code response)); [| lia].
  destruct (Z.ltb_spec (HuggingFace.status_code response) 600); [| lia].
  reflexivity.
Qed.

End AdapterProps.

(** * Further properties *)

(** ** Standards store: how the average behaves *)

Module StandardsExtra.
Import Standards StandardsSpec.

Lemma lower_ascii_idemp (c : ascii) : lower_ascii (lower_ascii c) = lower_ascii c.
Proof. destruct c as [[] [] [] [] [] [] [] []]; reflexivity. Qed.

Lemma lower_idemp (s : string) : lower (lower s) = lower s.
Proof. induction s as [|c s IH]; simpl; [done | by rewrite lower_ascii_idemp, IH]. Qed.

Lemma eqb_empty_lower (s : string) :
  String.eqb (lower s) EmptyString = String.eqb s EmptyString.
Proof. by destruct s. Qed.





(** Once the version and locale guards are passed, the result is the mean
    of the matching values, or the assertion error when there is none. *)
Lemma average_unfold validate_locale self locale :
  locale ≠ EmptyString → validate_locale (lower locale) = OK tt →
  average_standard_across_references validate_locale self locale "1.0"
  = match (matching_items self (lower locale)).*2 with
    | [] => Raise (AssertionError "No reference values found")
    | values => fmean values
    end.
Proof.
  intros Hne Hok. apply String.eqb_neq in Hne.
  unfold average_standard_across_references. simpl. rewrite Hne, Hok. simpl.
  by destruct ((matching_items self (lower locale)).*2).
Qed.

(** X1: the locale argument is read without regard to case: two locales
    that differ only in the case of their letters give the same result,
    whether a value or an exception, for every version. *)
Theorem locale_argument_case_insensitive
    (validate_locale : string → result unit) (self : data)
    (locale1 locale2 version : string) :
  lower locale1 = lower locale2 →
  average_standard_across_references validate_locale self locale1 version
  = average_standard_across_references validate_locale self locale2 version.
Proof.
  intros H. unfold average_standard_across_references.
  rewrite <- (eqb_empty_lower locale1), <- (eqb_empty_lower locale2), H.
  reflexivity.
Qed.

Lemma locale_argument_case_insensitive_witness :
  lower "en_US" = lower "EN_us" ∧
  average_standard_across_references accept_all scenario_lower "en_US" "1.0"
  = average_standard_across_references accept_all scenario_lower "EN_us" "1.0".
Proof.
  split; [reflexivity |].
  apply (locale_argument_case_insensitive accept_all scenario_lower "en_US" "EN_us" "1.0").
  reflexivity.
Defined.




(** X4: a hazard that has a reference standard contributes to the bar of
    its locale: when [reference_standard_for] returns for a name that
    contains the lowered locale, the average over that locale, for a locale
    that is not empty and is accepted, never fails for lack of reference
    values: it returns, or [fmean] itself raises (a sum beyond the floats,
    or both infinities among the values). *)
Theorem standard_makes_average_defined
    (validate_locale : string → result unit) (self : data)
    (name locale : string) (v : float64) :
  reference_standard_for self name = OK v →
  occurs_in (lower locale) name →
  locale ≠ EmptyString →
  validate_locale (lower locale) = OK tt →
  (∃ r, average_standard_across_references validate_locale self locale "1.0"
        = OK r) ∨
  (∃ msg, average_standard_across_references validate_locale self locale "1.0"
          = Raise (OverflowError msg)) ∨
  average_standard_across_references validate_locale self locale "1.0"
  = Raise (ValueError "-inf + inf in fsum").
Proof.
  intros Hstd Hocc Hne Hok. rewrite (average_unfold _ _ _ Hne Hok).
  unfold reference_standard_for in Hstd.
  destruct (reference_standards self !! name) as [v'|] eqn:Hl; [| done].
  simplify_eq.
  assert ((name, v) ∈ matching_items self (lower locale)) as Hin
    by (by apply StandardsProps.elem_of_matching_items).
  destruct (matching_items self (lower locale)) as [|kv items] eqn:Hm;
    [by apply not_elem_of_nil in Hin |].
  pose proof (StandardsProps.fmean_spec (kv.2 :: items.*2)) as Hspec.
  rewrite fmap_cons. cbv iota.
  destruct (fmean (kv.2 :: items.*2)) as [r|e]; [left; by exists r |].
  destruct Hspec; [done | right; right; done | right; left; eauto
                   | right; left; eauto].
Qed.

Lemma standard_makes_average_defined_witness :
  reference_standard_for scenario_lower "dfm_en_us_official" = OK (ratio 6 10) ∧
  occurs_in (lower "en_US") "dfm_en_us_official" ∧
  "en_US" ≠ EmptyString ∧
  accept_all (lower "en_US") = OK tt ∧
  ((∃ r, average_standard_across_references accept_all scenario_lower "en_US" "1.0"
         = OK r) ∨
   (∃ msg, average_standard_across_references accept_all scenario_lower "en_US" "1.0"
           = Raise (OverflowError msg)) ∨
   average_standard_across_references accept_all scenario_lower "en_US" "1.0"
   = Raise (ValueError "-inf + inf in fsum")).
Proof.
  assert (reference_standard_for scenario_lower "dfm_en_us_official"
          = OK (ratio 6 10)) as Hstd by (by vm_compute).
  assert (occurs_in (lower "en_US") "dfm_en_us_official") as Hocc
    by (apply contains_occurs; by vm_compute).
  split; [exact Hstd |]. split; [exact Hocc |]. split; [discriminate |].
  split; [reflexivity |].
  by apply (standard_makes_average_defined accept_all scenario_lower
              "dfm_en_us_official" "en_US" (ratio 6 10)).
Defined.

(** Two standards of 1e308 have a sum beyond the floats: each is returned
    by [reference_standard_for], yet the average raises. *)
Lemma huge_standards_overflow :
  reference_standard_for scenario_huge "dfm_en_us_official"
  = OK (float_of_Z (10 ^ 308)) ∧
  average_standard_across_references accept_all scenario_huge "en_US" "1.0"
  = Raise (OverflowError "intermediate overflow in fsum").
Proof.
  split; [by vm_compute |].
  unfold average_standard_across_references.
  change (lower "en_US") with "en_us". simpl.
  let items := eval vm_compute in (matching_items scenario_huge "en_us") in
  change (matching_items scenario_huge "en_us") with items.
  by vm_compute.
Qed.

End StandardsExtra.

(** ** External data: what a download does to the machine *)

Module ExternalDataExtra.
Import ExternalData ExternalDataSpec ExternalDataFixtures.

(** X6: the wait of [wait_exponential] is never below the minimum nor
    above the larger of the minimum and [MAX_WAIT], and it does not
    decrease from one attempt to the next. *)
Theorem wait_exponential_bounded (multiplier min : Z) (n n' : nat) :
  (0 ≤ multiplier)%Z → 1 ≤ n → n ≤ n' →
  (Z.max 0 min ≤ wait_exponential multiplier min n)%Z ∧
  (wait_exponential multiplier min n ≤ Z.max (Z.max 0 min) MAX_WAIT)%Z ∧
  (wait_exponential multiplier min n ≤ wait_exponential multiplier min n')%Z.
Proof.
  intros Hm Hn Hnn'. unfold wait_exponential.
  assert (2 ^ (Z.of_nat n - 1) ≤ 2 ^ (Z.of_nat n' - 1))%Z as Hpow
    by (apply Z.pow_le_mono_r; lia).
  assert (multiplier * 2 ^ (Z.of_nat n - 1)
          ≤ multiplier * 2 ^ (Z.of_nat n' - 1))%Z as Hmul
    by (by apply Z.mul_le_mono_nonneg_l).
  lia.
Qed.

Lemma wait_exponential_bounded_witness :
  (0 ≤ 3)%Z ∧ 1 ≤ 2 ∧ 2 ≤ 4 ∧
  (Z.max 0 15 ≤ wait_exponential 3 15 2)%Z ∧
  (wait_exponential 3 15 2 ≤ Z.max (Z.max 0 15) MAX_WAIT)%Z ∧
  (wait_exponential 3 15 2 ≤ wait_exponential 3 15 4)%Z.
Proof.
  split; [lia |]. split; [lia |]. split; [lia |].
  apply (wait_exponential_bounded 3 15 2 4); lia.
Defined.

Lemma web_retry_recovers E url location wait (k : nat) :
  ∀ (remaining a : nat) (w : world) (body : string),
    k ≤ remaining →
    (∀ i, i < k → ∃ e, urlretrieve E (clock w + i) url = Raise e) →
    urlretrieve E (clock w + k) url = OK body →
    retry_loop remaining a wait (WebData_download_body E url location) w
    = (OK tt, mkWorld (<[location := body]> (files w)) (clock w + S k)
                      (slept w ++ (wait <$> seq a k)) (entered w + S k)).
Proof.
  induction k as [|k IH]; intros remaining a w body Hk Hfail Hok.
  - rewrite Nat.add_0_r in Hok.
    assert (WebData_download_body E url location w
            = (OK tt, mkWorld (<[location := body]> (files w)) (clock w + 1)
                              (slept w ++ []) (entered w + 1))) as Hbody.
    { unfold WebData_download_body. simpl. rewrite Hok.
      unfold write_file, tick, enter. simpl.
      by rewrite app_nil_r, !Nat.add_1_r. }
    destruct remaining; simpl; by rewrite Hbody.
  - destruct remaining as [|remaining]; [lia |].
    destruct (Hfail 0) as [e He]; [lia |]. rewrite Nat.add_0_r in He.
    simpl. unfold WebData_download_body at 1. simpl. rewrite He.
    destruct (urlretrieve_remains E (clock w) url) as [partial|];
      rewrite (IH remaining (S a) _ body); simpl;
      try lia;
      try (by rewrite <- Hok, Nat.add_succ_r);
      try (intros i Hi; destruct (Hfail (S i)) as [e' He']; [lia |];
           exists e'; by rewrite <- He', Nat.add_succ_r).
    + rewrite insert_insert_eq.
      f_equal. f_equal; [lia | by rewrite <- app_assoc | lia].
    + f_equal. f_equal; [lia | by rewrite <- app_assoc | lia].
Qed.

(** X7: a [WebData] download recovers from transient failures: when the
    first [k] retrievals fail ([k] at most 4) and the next one succeeds,
    [download] returns, the file holds what was retrieved, [k + 1]
    retrievals were made and the first [k] waits of 1, 2, 4, 8 seconds
    were slept. *)
Theorem webdata_download_recovers (E : env) (url location : string)
    (w : world) (k : nat) (body : string) :
  k ≤ 4 →
  (∀ i, i < k → ∃ e, urlretrieve E (clock w + i) url = Raise e) →
  urlretrieve E (clock w + k) url = OK body →
  download E (WebData url) location w
  = (OK tt, mkWorld (<[location := body]> (files w)) (clock w + S k)
                    (slept w ++ take k [1; 2; 4; 8]%Z) (entered w + S k)).
Proof.
  intros Hk Hfail Hok. simpl. unfold retry.
  rewrite (web_retry_recovers E url location _ k _ _ w body); [| done..].
  by rewrite ExternalDataProps.wait_exponential_1_1.
Qed.

Lemma webdata_download_recovers_witness :
  2 ≤ 4 ∧
  (∀ i, i < 2 → ∃ e, urlretrieve flaky (clock fresh + i)
                       "https://example.org/corpus.csv" = Raise e) ∧
  urlretrieve flaky (clock fresh + 2) "https://example.org/corpus.csv" = OK "rows" ∧
  download flaky (WebData "https://example.org/corpus.csv") "corpus.csv" fresh
  = (OK tt, mkWorld (<["corpus.csv" := "rows"]> (files fresh)) (clock fresh + 3)
                    (slept fresh ++ take 2 [1; 2; 4; 8]%Z) (entered fresh + 3)).
Proof.
  assert (∀ i, i < 2 → ∃ e, urlretrieve flaky (clock fresh + i)
                              "https://example.org/corpus.csv" = Raise e) as Hfail.
  { intros i Hi. exists (ConnectionError "timed out").
    destruct i as [|[|i]]; [reflexivity | reflexivity | lia]. }
  split; [lia |]. split; [exact Hfail |]. split; [reflexivity |].
  apply (webdata_download_recovers flaky "https://example.org/corpus.csv"
           "corpus.csv" fresh 2 "rows"); [lia | exact Hfail | reflexivity].
Defined.


Lemma find_no_match (file_path : string) (listing : list GFile) :
  (∀ f, f ∈ listing → path f ≠ file_path) →
  List.find (fun file => String.eqb (path file) file_path) listing = None.
Proof.
  induction listing as [|f l IH]; intros Hno; simpl; [done |].
  destruct (String.eqb_spec (path f) file_path) as [Heq|_].
  - destruct (Hno f); [by left | done].
  - apply IH. intros g Hg. apply Hno. by right.
Qed.

Lemma find_first_match (file_path : string) (listing : list GFile) (f : GFile) :
  List.find (fun file => String.eqb (path file) file_path) listing = Some f →
  ∃ before after,
    listing = before ++ f :: after ∧ path f = file_path ∧
    ∀ g, g ∈ before → path g ≠ file_path.
Proof.
  induction listing as [|g l IH]; simpl; [done |].
  destruct (String.eqb_spec (path g) file_path) as [Heq|Hne]; intros H.
  - simplify_eq. exists [], l. split; [done |]. split; [done |].
    intros g Hg. by apply not_elem_of_nil in Hg.
  - destruct (IH H) as (before & after & -> & Hp & Hno).
    exists (g :: before), after. split; [done |]. split; [done |].
    intros g' Hg'. apply elem_of_cons in Hg' as [->|Hg']; [done | by apply Hno].
Qed.

(** X9: when the folder can be listed but holds no file under
    [file_path], [GDriveData.download] lists it five times, downloads
    nothing, and raises the [RuntimeError] that names the file and the
    folder. *)
Theorem gdrive_missing_file (E : env) (data_source file_path location : string)
    (w : world) (r : result unit) (w' : world) :
  (∀ n, ∃ listing, gdown_download_folder E n data_source = OK listing ∧
                   ∀ f, f ∈ listing → path f ≠ file_path) →
  download E (GDriveData data_source file_path) location w = (r, w') →
  r = Raise (RuntimeError ("Cannot find file with name " +:+ file_path +:+
                           " in google drive folder " +:+ data_source)) ∧
  files w' = files w ∧ clock w' = clock w + 5 ∧ entered w' = entered w + 5 ∧
  slept w' = slept w ++ [15; 15; 15; 24]%Z.
Proof.
  intros Hlist H.
  assert (∀ w0, GDriveData_download_body E data_source file_path location w0
                = (Raise (RuntimeError ("Cannot find file with name " +:+ file_path
                                        +:+ " in google drive folder "
                                        +:+ data_source)),
                   tick (enter w0))) as Hbody.
  { intros w0. unfold GDriveData_download_body.
    destruct (Hlist (clock (enter w0))) as (listing & -> & Hno).
    by rewrite (find_no_match _ _ Hno). }
  simpl in H. unfold retry in H.
  apply (ExternalDataProps.retry_loop_spec _
           (fun w0 => files w0 = files w ∧
                      clock w0 + entered w = clock w + entered w0)) in H
    as (n & w0 & _ & [Hfiles Hclock] & Hfn & Hent & Hsl & Hlast).
  - rewrite Hbody in Hfn. simplify_eq.
    rewrite (Hlast _ eq_refl) in *. simpl in *.
    repeat split; [done | lia | lia |].
    by rewrite Hsl.
  - intros w1 r1 w1' Hfn. rewrite Hbody in Hfn. by simplify_eq.
  - intros w1 e w1' [Hf Hc] Hfn. rewrite Hbody in Hfn. simplify_eq. simpl.
    split; [done | lia].
  - intros s w1 [Hf Hc]. done.
  - split; [done | lia].
Qed.

Lemma gdrive_missing_file_witness :
  (∀ n, ∃ listing, gdown_download_folder drive n "https://drive.example/folder"
                   = OK listing ∧
                   ∀ f, f ∈ listing → path f ≠ "answers.csv") ∧
  Raise (RuntimeError "Cannot find file with name answers.csv in google drive folder https://drive.example/folder")
  = (download drive (GDriveData "https://drive.example/folder" "answers.csv")
       "answers.csv" fresh).1.
Proof.
  assert (∀ n, ∃ listing, gdown_download_folder drive n "https://drive.example/folder"
                          = OK listing ∧
                          ∀ f, f ∈ listing → path f ≠ "answers.csv") as Hlist.
  { intros n. eexists. split; [reflexivity |]. intros f Hf.
    repeat (apply elem_of_cons in Hf as [->|Hf]; [discriminate |]).
    by apply elem_of_nil in Hf. }
  split; [exact Hlist |].
  symmetry.
  apply (gdrive_missing_file drive "https://drive.example/folder" "answers.csv"
           "answers.csv" fresh _
           (download drive (GDriveData "https://drive.example/folder" "answers.csv")
              "answers.csv" fresh).2 Hlist).
  by destruct (download drive _ _ fresh).
Defined.

(** X10: a [GDriveData] download that returns has written, at the
    location, the download of the first file of a listing whose path is
    [file_path]; files listed before it have another path. *)
Theorem gdrive_downloads_first_match (E : env)
    (data_source file_path location : string) (w : world) (u : unit) (w' : world) :
  download E (GDriveData data_source file_path) location w = (OK u, w') →
  ∃ n m before f after body,
    gdown_download_folder E n data_source = OK (before ++ f :: after) ∧
    path f = file_path ∧ (∀ g, g ∈ before → path g ≠ file_path) ∧
    gdown_download E m (id f) = OK body ∧
    files w' = <[location := body]> (files w).
Proof.
  intros H. simpl in H. unfold retry in H.
  apply (ExternalDataProps.retry_loop_spec _ (fun w0 => files w0 = files w)) in H
    as (n & w0 & _ & Hfiles & Hbody & _); [| | | done..].
  2: { intros w1 r1 w1'.
       apply (ExternalDataProps.download_body_enters E
                (GDriveData data_source file_path) location). }
  2: { intros w1 e w1' Hw1 Hfn. unfold GDriveData_download_body in Hfn.
       repeat case_match; by simplify_eq. }
  unfold GDriveData_download_body in Hbody.
  destruct (gdown_download_folder E _ data_source) as [listing|e] eqn:Hl; [| done].
  destruct (List.find _ listing) as [f|] eqn:Hfind; [| done].
  destruct (gdown_download E _ (id f)) as [body|e] eqn:Hd; [| done].
  apply find_first_match in Hfind as (before & after & -> & Hp & Hno).
  simplify_eq. simpl. rewrite Hfiles. eauto 12.
Qed.

Lemma gdrive_downloads_first_match_witness :
  download drive (GDriveData "https://drive.example/folder" "prompts.csv")
    "prompts.csv" fresh
  = (OK tt, mkWorld (<["prompts.csv" := "content of id-2"]> ∅) 2 [] 1) ∧
  ∃ n m before f after body,
    gdown_download_folder drive n "https://drive.example/folder"
    = OK (before ++ f :: after) ∧
    path f = "prompts.csv" ∧ (∀ g, g ∈ before → path g ≠ "prompts.csv") ∧
    gdown_download drive m (id f) = OK body ∧
    <["prompts.csv" := "content of id-2"]> (∅ : gmap string string)
    = <["prompts.csv" := body]> (files fresh).
Proof.
  split; [reflexivity |].
  exact (gdrive_downloads_first_match drive "https://drive.example/folder"
           "prompts.csv" "prompts.csv" fresh tt
           (mkWorld (<["prompts.csv" := "content of id-2"]> ∅) 2 [] 1) eq_refl).
Defined.


(** X12: a [SecretWebData] without header, without secret object or
    without secret value is retried like a network failure: [download]
    makes five attempts and sleeps 1, 2, 4 and 8 seconds before it raises,
    and no request is sent in the meantime. *)
Theorem secret_misconfiguration_is_retried (E : env)
    (source_url header : string) (secret : option Secret) (location : string)
    (w : world) (r : result unit) (w' : world) :
  header = EmptyString ∨ secret = None ∨ (∃ s, secret = Some s ∧ value_absent s) →
  download E (SecretWebData source_url header secret) location w = (r, w') →
  (∃ e, r = Raise e) ∧
  files w' = files w ∧ clock w' = clock w ∧ entered w' = entered w + 5 ∧
  slept w' = slept w ++ [1; 2; 4; 8]%Z.
Proof.
  intros Hcfg H.
  assert (∃ e, ∀ w0, SecretWebData_download_body E source_url header secret
                       location w0 = (Raise e, enter w0)) as [e Hbody].
  { unfold SecretWebData_download_body.
    destruct Hcfg as [->|Hcfg]; [eexists; intros; reflexivity |].
    destruct (String.eqb header EmptyString); [eexists; intros; reflexivity |].
    destruct Hcfg as [->|(s & -> & [Hv|Hv])];
      try rewrite Hv; eexists; intros; reflexivity. }
  simpl in H. unfold retry in H.
  apply (ExternalDataProps.retry_loop_spec _
           (fun w0 => files w0 = files w ∧ clock w0 = clock w)) in H
    as (n & w0 & _ & [Hfiles Hclock] & Hfn & Hent & Hsl & Hlast).
  - rewrite Hbody in Hfn. simplify_eq.
    rewrite (Hlast _ eq_refl) in *. simpl in *.
    split; [eauto |]. repeat split; [done | done | lia |].
    by rewrite Hsl.
  - intros w1 r1 w1' Hfn. rewrite Hbody in Hfn. by simplify_eq.
  - intros w1 e1 w1' [Hf Hc] Hfn. rewrite Hbody in Hfn. by simplify_eq.
  - intros s w1 [Hf Hc]. done.
  - done.
Qed.

Lemma secret_misconfiguration_is_retried_witness :
  (EmptyString = EmptyString ∨ Some (api_key None) = None ∨
   ∃ s, Some (api_key None) = Some s ∧ value_absent s) ∧
  download offline
    (SecretWebData "https://example.org/data" EmptyString (Some (api_key None)))
    "data.bin" fresh
  = (Raise (ValueError "Secret data for https://example.org/data needs a header"),
     mkWorld ∅ 0 [1; 2; 4; 8]%Z 5) ∧
  ∃ e, Raise (ValueError "Secret data for https://example.org/data needs a header")
       = @Raise unit e.
Proof.
  split; [by left |]. split; [reflexivity |].
  apply (secret_misconfiguration_is_retried offline "https://example.org/data"
           EmptyString (Some (api_key None)) "data.bin" fresh _
           (mkWorld ∅ 0 [1; 2; 4; 8]%Z 5)); [by left | reflexivity].
Defined.

End ExternalDataExtra.

(** ** SUT adapters: translation, failures and what is logged *)

Module AdapterExtra.
Import AdapterSpec AdapterFixtures.

Lemma has_text_completion (c : GoogleGenAi.Candidate) (t : string) :
  has_text c t →
  (v <- GoogleGenAi.candidate_text c ;;; SUT.make_SUTCompletion v)
  = OK (SUT.mkSUTCompletion t).
Proof.
  intros (part & rest & Hp & Ht). unfold GoogleGenAi.candidate_text. simpl.
  rewrite Hp. simpl. by rewrite Ht.
Qed.

Lemma lacks_text_raises (c : GoogleGenAi.Candidate) (e : exn) :
  lacks_text c e →
  (v <- GoogleGenAi.candidate_text c ;;; SUT.make_SUTCompletion v) = Raise e.
Proof.
  unfold GoogleGenAi.candidate_text.
  intros [Hp|Hp|part rest Hp Ht|part rest v Hp Ht Hv]; simpl; rewrite Hp; simpl;
    try done; rewrite Ht; simpl; [done |].
  destruct v; try done. by destruct (Hv s).
Qed.

(** X13: the Google adapter stops at the first candidate without a text
    and raises the exception of that lookup ([KeyError] for a missing
    ["parts"] or ["text"], [IndexError] for an empty list of parts, a
    validation error for a text that is not a string); the candidates
    after it play no part. *)
Theorem first_candidate_without_text_raises
    (request : GoogleGenAi.GoogleGenAiRequest)
    (good : list GoogleGenAi.Candidate) (bad : GoogleGenAi.Candidate)
    (rest : list GoogleGenAi.Candidate) (usage : list (string * pyval)) (e : exn) :
  (∀ c, c ∈ good → ∃ t, has_text c t) →
  lacks_text bad e →
  GoogleGenAi.translate_response request
    (GoogleGenAi.mkGoogleGenAiResponse (good ++ bad :: rest) usage)
  = Raise e.
Proof.
  intros Hgood Hbad. unfold GoogleGenAi.translate_response. simpl.
  induction good as [|c good IH]; simpl.
  - by rewrite (lacks_text_raises _ _ Hbad).
  - destruct (Hgood c) as [t Ht]; [by left |].
    rewrite (has_text_completion _ _ Ht). simpl.
    destruct (mapM _ (good ++ bad :: rest)) as [cs|e'] eqn:Hm; simpl in *.
    + discriminate IH. intros c' Hc'. apply Hgood. by right.
    + rewrite IH; [done |]. intros c' Hc'. apply Hgood. by right.
Qed.

Lemma first_candidate_without_text_raises_witness :
  (∀ c, c ∈ [candidate_saying "Hi"] → ∃ t, has_text c t) ∧
  lacks_text blocked_candidate (KeyError "parts") ∧
  GoogleGenAi.translate_response (GoogleGenAi.translate_text_prompt bare_prompt)
    (GoogleGenAi.mkGoogleGenAiResponse
       ([candidate_saying "Hi"] ++ blocked_candidate :: [candidate_saying "Bye"]) [])
  = Raise (KeyError "parts").
Proof.
  assert (∀ c, c ∈ [candidate_saying "Hi"] → ∃ t, has_text c t) as Hgood.
  { intros c Hc. apply list_elem_of_singleton in Hc as ->.
    exists "Hi", [("text", PStr "Hi")], []. by split. }
  assert (lacks_text blocked_candidate (KeyError "parts")) as Hbad
    by (by apply no_parts).
  split; [exact Hgood |]. split; [exact Hbad |].
  by apply first_candidate_without_text_raises.
Defined.

Lemma completions_of_texts (candidates : list GoogleGenAi.Candidate)
    (texts : list string) :
  Forall2 has_text candidates texts →
  mapM (fun candidate =>
          v <- GoogleGenAi.candidate_text candidate ;;; SUT.make_SUTCompletion v)
       candidates
  = OK (SUT.mkSUTCompletion <$> texts).
Proof.
  induction 1 as [|c t cs ts Hc _ IH]; simpl; [done |].
  rewrite (has_text_completion _ _ Hc). simpl. by rewrite IH.
Qed.

(** X14: when every candidate carries a text, the Google adapter returns
    exactly these texts, one completion for each candidate, in the order of
    the candidates. *)
Theorem texts_are_translated_in_order
    (request : GoogleGenAi.GoogleGenAiRequest)
    (response : GoogleGenAi.GoogleGenAiResponse) (texts : list string) :
  Forall2 has_text (GoogleGenAi.candidates response) texts →
  GoogleGenAi.translate_response request response
  = OK (SUT.mkSUTResponse (SUT.mkSUTCompletion <$> texts)).
Proof.
  intros Hall. unfold GoogleGenAi.translate_response.
  by rewrite (completions_of_texts _ _ Hall).
Qed.

Lemma texts_are_translated_in_order_witness :
  Forall2 has_text [candidate_saying "Hi"; candidate_saying "Bye"] ["Hi"; "Bye"] ∧
  GoogleGenAi.translate_response (GoogleGenAi.translate_text_prompt bare_prompt)
    (GoogleGenAi.mkGoogleGenAiResponse
       [candidate_saying "Hi"; candidate_saying "Bye"] [])
  = OK (SUT.mkSUTResponse [SUT.mkSUTCompletion "Hi"; SUT.mkSUTCompletion "Bye"]).
Proof.
  assert (Forall2 has_text [candidate_saying "Hi"; candidate_saying "Bye"]
                  ["Hi"; "Bye"]) as Hall.
  { repeat constructor.
    - exists [("text", PStr "Hi")], []. by split.
    - exists [("text", PStr "Bye")], []. by split. }
  split; [exact Hall |].
  exact (texts_are_translated_in_order _
           (GoogleGenAi.mkGoogleGenAiResponse
              [candidate_saying "Hi"; candidate_saying "Bye"] []) _ Hall).
Defined.


Lemma evaluate_unfold requests_post self request w :
  HuggingFace.evaluate requests_post self request w
  = let payload := HuggingFace.model_dump_exclude_none request in
    let w' := HuggingFace.mkWorld
                (HuggingFace.posted w ++
                 [(HuggingFace.api_url self,
                   bearer_headers (HuggingFace.token self), payload)])
                (HuggingFace.printed w) in
    match requests_post (length (HuggingFace.posted w)) (HuggingFace.api_url self)
            (bearer_headers (HuggingFace.token self)) payload with
    | Raise e => (Raise e, w')
    | OK response =>
        match parsed response with
        | OK r => (OK r, w')
        | Raise e =>
            (Raise e,
             HuggingFace.mkWorld (HuggingFace.posted w')
               (HuggingFace.printed w' ++ [(payload, response)]))
        end
    end.
Proof. reflexivity. Qed.

Lemma parsed_returns (response : HuggingFace.Response) (text : string) :
  parsed response = OK (HuggingFace.mkHuggingFaceResponse text) ↔
  ¬ (400 ≤ HuggingFace.status_code response < 600)%Z ∧
  ∃ items rest,
    HuggingFace.json response = OK (PList (PDict items :: rest)) ∧
    dict_get "generated_text" items = Some (PStr text).
Proof.
  split.
  - unfold parsed, HuggingFace.raise_for_status.
    intros H. split.
    + destruct (Z.eqb_spec (HuggingFace.status_code response) 200); [lia |].
      destruct (Z.leb_spec 400 (HuggingFace.status_code response)); [| lia].
      destruct (Z.ltb_spec (HuggingFace.status_code response) 600); [| lia].
      discriminate H.
    + destruct (if negb _ then _ else _) as [[]|e]; [| done]. simpl in H.
      destruct (HuggingFace.json response) as [body|e]; [| done]. simpl in H.
      unfold subscript_int, HuggingFace.make_HuggingFaceResponse in H.
      repeat (case_match; simplify_eq; simpl in H; try done).
      all: match goal with
           | Hr : resolve_index 0 (length ?l) = Some ?j, Hl : ?l !! ?j = Some _ |- _ =>
               destruct l; [done |]; vm_compute in Hr; simplify_eq; simpl in Hl;
               simplify_eq
           end.
      destruct p; simplify_eq. eauto.
  - intros (Hs & items & rest & Hj & Hg). unfold parsed.
    assert ((if negb (HuggingFace.status_code response =? 200)%Z
             then HuggingFace.raise_for_status response else OK tt) = OK tt) as ->.
    { unfold HuggingFace.raise_for_status.
      destruct (Z.eqb_spec (HuggingFace.status_code response) 200); [done |].
      destruct (Z.leb_spec 400 (HuggingFace.status_code response)); [| done].
      destruct (Z.ltb_spec (HuggingFace.status_code response) 600); [lia | done]. }
    simpl. rewrite Hj. simpl. by rewrite Hg.
Qed.

(** X15: [HuggingFaceSUT.evaluate] returns a response with the text [t]
    exactly when the endpoint answered, the status is not from 400 to 599,
    the body is a JSON list, and its first item is an object whose
    ["generated_text"] is the string [t]. *)
Theorem evaluate_returns_iff
    (requests_post : nat → string → list (string * string) →
                     list (string * pyval) → result HuggingFace.Response)
    (self : HuggingFace.HuggingFaceSUT)
    (request : HuggingFace.HuggingFaceChatRequest) (w : HuggingFace.world)
    (t : string) :
  (HuggingFace.evaluate requests_post self request w).1
  = OK (HuggingFace.mkHuggingFaceResponse t) ↔
  ∃ response items rest,
    requests_post (length (HuggingFace.posted w)) (HuggingFace.api_url self)
      (bearer_headers (HuggingFace.token self))
      (HuggingFace.model_dump_exclude_none request) = OK response ∧
    ¬ (400 ≤ HuggingFace.status_code response < 600)%Z ∧
    HuggingFace.json response = OK (PList (PDict items :: rest)) ∧
    dict_get "generated_text" items = Some (PStr t).
Proof.
  rewrite evaluate_unfold. simpl.
  destruct (requests_post _ _ _ _) as [response|e] eqn:Hpost; simpl.
  - destruct (parsed response) as [r|e] eqn:Hp; simpl.
    + split.
      * intros ?. simplify_eq. apply parsed_returns in Hp as (? & ? & ? & ? & ?).
        eauto 8.
      * intros (response' & items & rest & ? & Hs & Hj & Hg). simplify_eq.
        assert (parsed response' = OK (HuggingFace.mkHuggingFaceResponse t)) as Hp'
          by (apply parsed_returns; eauto).
        congruence.
    + split; [done |].
      intros (response' & items & rest & ? & Hs & Hj & Hg). simplify_eq.
      assert (parsed response' = OK (HuggingFace.mkHuggingFaceResponse t)) as Hp'
        by (apply parsed_returns; eauto).
      congruence.
  - split; [done | intros (? & ? & ? & ? & _); congruence].
Qed.

(** X16: every call of [HuggingFaceSUT.evaluate] posts once, to the URL of
    the SUT with its token as bearer; an exception raised by the POST
    itself is passed on without printing; after an answer, a failure is
    printed exactly once, with the payload and the response, and a success
    prints nothing. *)
Theorem evaluate_posts_once_and_prints_failures
    (requests_post : nat → string → list (string * string) →
                     list (string * pyval) → result HuggingFace.Response)
    (self : HuggingFace.HuggingFaceSUT)
    (request : HuggingFace.HuggingFaceChatRequest) (w : HuggingFace.world) :
  let payload := HuggingFace.model_dump_exclude_none request in
  let out := HuggingFace.evaluate requests_post self request w in
  HuggingFace.posted out.2
  = HuggingFace.posted w ++
    [(HuggingFace.api_url self, bearer_headers (HuggingFace.token self), payload)] ∧
  match requests_post (length (HuggingFace.posted w)) (HuggingFace.api_url self)
          (bearer_headers (HuggingFace.token self)) payload with
  | Raise e =>
      out.1 = Raise e ∧ HuggingFace.printed out.2 = HuggingFace.printed w
  | OK response =>
      match out.1 with
      | OK _ => HuggingFace.printed out.2 = HuggingFace.printed w
      | Raise _ =>
          HuggingFace.printed out.2 = HuggingFace.printed w ++ [(payload, response)]
      end
  end.
Proof.
  intros payload out. unfold out. rewrite evaluate_unfold. simpl. fold payload.
  destruct (requests_post _ _ _ _) as [response|e]; simpl; [| done].
  destruct (parsed response); done.
Qed.

(** X17: from prompt to completions through the Hugging Face adapter: when
    the endpoint answers 200 with a list whose first item has the generated
    text [t], translating the prompt, evaluating it on a SUT built with a
    token, and translating the answer gives exactly one completion, [t]. *)
Theorem huggingface_round_trip
    (requests_post : nat → string → list (string * string) →
                     list (string * pyval) → result HuggingFace.Response)
    (uid api_url token : string) (prompt : Prompt.TextPrompt)
    (w : HuggingFace.world) (response : HuggingFace.Response)
    (items : list (string * pyval)) (rest : list pyval) (t : string) :
  let self := HuggingFace.__init__ uid api_url token in
  let request := HuggingFace.translate_text_prompt prompt in
  requests_post (length (HuggingFace.posted w)) api_url (bearer_headers token)
    (HuggingFace.model_dump_exclude_none request) = OK response →
  HuggingFace.status_code response = 200%Z →
  HuggingFace.json response = OK (PList (PDict items :: rest)) →
  dict_get "generated_text" items = Some (PStr t) →
  ∃ answer,
    (HuggingFace.evaluate requests_post self request w).1 = OK answer ∧
    HuggingFace.translate_response request answer
    = SUT.mkSUTResponse [SUT.mkSUTCompletion t].
Proof.
  intros self request Hpost Hs Hj Hg.
  exists (HuggingFace.mkHuggingFaceResponse t). split; [| done].
  rewrite evaluate_unfold. simpl. rewrite Hpost.
  assert (parsed response = OK (HuggingFace.mkHuggingFaceResponse t)) as ->
    by (apply parsed_returns; split; [lia | eauto]).
  done.
Qed.

Lemma huggingface_round_trip_witness :
  serving 0 "https://endpoint.example" (bearer_headers "hf_token")
    (HuggingFace.model_dump_exclude_none
       (HuggingFace.translate_text_prompt plain_prompt))
  = OK (HuggingFace.mkResponse 200
          (OK (PList [PDict [("generated_text", PStr "Hi there")]])) "body" []) ∧
  ∃ answer,
    (HuggingFace.evaluate serving
       (HuggingFace.__init__ "olmo" "https://endpoint.example" "hf_token")
       (HuggingFace.translate_text_prompt plain_prompt)
       (HuggingFace.mkWorld [] [])).1 = OK answer ∧
    HuggingFace.translate_response
      (HuggingFace.translate_text_prompt plain_prompt) answer
    = SUT.mkSUTResponse [SUT.mkSUTCompletion "Hi there"].
Proof.
  split; [reflexivity |].
  exact (huggingface_round_trip serving "olmo" "https://endpoint.example" "hf_token"
           plain_prompt (HuggingFace.mkWorld [] [])
           (HuggingFace.mkResponse 200
              (OK (PList [PDict [("generated_text", PStr "Hi there")]])) "body" [])
           [("generated_text", PStr "Hi there")] [] "Hi there"
           eq_refl eq_refl eq_refl eq_refl).
Defined.

(** X18: the Hugging Face adapter reads the text, the token limit and the
    temperature of a prompt and nothing else: two prompts that agree on
    these three are translated to the same request, whatever their stop
    sequences, top-p, top-k and penalties. *)
Theorem huggingface_ignores_other_options (prompt1 prompt2 : Prompt.TextPrompt) :
  Prompt.text prompt1 = Prompt.text prompt2 →
  Prompt.max_tokens (Prompt.options prompt1)
  = Prompt.max_tokens (Prompt.options prompt2) →
  Prompt.temperature (Prompt.options prompt1)
  = Prompt.temperature (Prompt.options prompt2) →
  HuggingFace.translate_text_prompt prompt1
  = HuggingFace.translate_text_prompt prompt2.
Proof.
  intros Ht Hm Htemp. unfold HuggingFace.translate_text_prompt.
  by rewrite Ht, Hm, Htemp.
Qed.

Lemma huggingface_ignores_other_options_witness :
  Prompt.text verbose_prompt = Prompt.text plain_prompt ∧
  HuggingFace.translate_text_prompt verbose_prompt
  = HuggingFace.translate_text_prompt plain_prompt.
Proof.
  split; [reflexivity |].
  apply (huggingface_ignores_other_options verbose_prompt plain_prompt);
    reflexivity.
Defined.

(** X19: when the endpoint answers with a status from 400 to 599,
    [HuggingFaceSUT.evaluate] raises the HTTP error of that status without
    reading the body, and prints the payload and the response once. *)
Theorem error_status_raises_and_is_printed
    (requests_post : nat → string → list (string * string) →
                     list (string * pyval) → result HuggingFace.Response)
    (self : HuggingFace.HuggingFaceSUT)
    (request : HuggingFace.HuggingFaceChatRequest) (w : HuggingFace.world)
    (response : HuggingFace.Response) :
  let payload := HuggingFace.model_dump_exclude_none request in
  requests_post (length (HuggingFace.posted w)) (HuggingFace.api_url self)
    (bearer_headers (HuggingFace.token self)) payload = OK response →
  (400 ≤ HuggingFace.status_code response < 600)%Z →
  HuggingFace.evaluate requests_post self request w
  = (Raise (HTTPError (HuggingFace.status_code response)),
     HuggingFace.mkWorld
       (HuggingFace.posted w ++
        [(HuggingFace.api_url self, bearer_headers (HuggingFace.token self),
          payload)])
       (HuggingFace.printed w ++ [(payload, response)])).
Proof.
  intros payload Hpost Hstatus. rewrite evaluate_unfold. simpl. fold payload.
  rewrite Hpost.
  assert (parsed response = Raise (HTTPError (HuggingFace.status_code response)))
    as ->; [| done].
  unfold parsed, HuggingFace.raise_for_status.
  destruct (Z.eqb_spec (HuggingFace.status_code response) 200); [lia |].
  destruct (Z.leb_spec 400 (HuggingFace.status_code response)); [| lia].
  destruct (Z.ltb_spec (HuggingFace.status_code response) 600); [| lia].
  done.
Qed.

Lemma error_status_raises_and_is_printed_witness :
  (400 ≤ 503 < 600)%Z ∧
  HuggingFace.evaluate overloaded olmo
    (HuggingFace.translate_text_prompt bare_prompt) (HuggingFace.mkWorld [] [])
  = (Raise (HTTPError 503),
     HuggingFace.mkWorld
       [(HuggingFace.api_url olmo, bearer_headers (HuggingFace.token olmo),
         HuggingFace.model_dump_exclude_none
           (HuggingFace.translate_text_prompt bare_prompt))]
       [(HuggingFace.model_dump_exclude_none
           (HuggingFace.translate_text_prompt bare_prompt),
         HuggingFace.mkResponse 503 (Raise JSONDecodeError) "busy" [])]).
Proof.
  split; [lia |].
  refine (error_status_raises_and_is_printed overloaded olmo
            (HuggingFace.translate_text_prompt bare_prompt)
            (HuggingFace.mkWorld [] [])
            (HuggingFace.mkResponse 503 (Raise JSONDecodeError) "busy" [])
            eq_refl _).
  simpl. lia.
Defined.


(** X20: from prompt to completions through the Google adapter: on a SUT
    fresh from its constructor, when the vendor answers the call and the
    answer validates to a response whose candidates carry the texts
    [texts], [evaluate] returns that response, has built one client for the
    model name given to the constructor and keeps it, and
    [translate_response] gives the completions [texts], in order. *)
Theorem google_round_trip
    (generate_content :
       nat → GoogleGenAi.GenerativeModel → list (string * pyval) → result pyval)
    (validate_response : pyval → result GoogleGenAi.GoogleGenAiResponse)
    (uid model_name : string) (prompt : Prompt.TextPrompt) (w : GoogleGenAi.world)
    (d : pyval) (response : GoogleGenAi.GoogleGenAiResponse) (texts : list string) :
  let self := GoogleGenAi.__init__ uid model_name in
  let request := GoogleGenAi.translate_text_prompt prompt in
  let client :=
    GoogleGenAi.mkGenerativeModel (length (GoogleGenAi.created w)) model_name in
  generate_content (length (GoogleGenAi.sent w)) client
    (GoogleGenAi.model_dump_exclude_none request) = OK d →
  validate_response d = OK response →
  Forall2 has_text (GoogleGenAi.candidates response) texts →
  ∃ self' w',
    GoogleGenAi.evaluate generate_content validate_response self request w
    = (OK response, self', w') ∧
    GoogleGenAi.model self' = Some client ∧
    GoogleGenAi.created w' = GoogleGenAi.created w ++ [client] ∧
    GoogleGenAi.translate_response request response
    = OK (SUT.mkSUTResponse (SUT.mkSUTCompletion <$> texts)).
Proof.
  intros self request client Hcall Hvalid Hall.
  unfold GoogleGenAi.evaluate, GoogleGenAi._load_client. simpl.
  fold request. fold client. rewrite Hcall, Hvalid.
  eexists _, _. split; [reflexivity |]. simpl.
  split; [done |]. split; [done |].
  unfold GoogleGenAi.translate_response.
  by rewrite (completions_of_texts _ _ Hall).
Qed.

Lemma google_round_trip_witness :
  let answer :=
    GoogleGenAi.mkGoogleGenAiResponse [candidate_saying "Hi"; candidate_saying "Bye"] [] in
  let d := PDict [("candidates", PList [candidate_dict "Hi"; candidate_dict "Bye"]);
                  ("usage_metadata", PDict [])] in
  greeting 0 (GoogleGenAi.mkGenerativeModel 0 "gemini-1.5-flash")
    (GoogleGenAi.model_dump_exclude_none
       (GoogleGenAi.translate_text_prompt bare_prompt)) = OK d ∧
  validate_typed d = OK answer ∧
  Forall2 has_text (GoogleGenAi.candidates answer) ["Hi"; "Bye"] ∧
  ∃ self' w',
    GoogleGenAi.evaluate greeting validate_typed
      (GoogleGenAi.__init__ "gemini-1.5-flash" "gemini-1.5-flash")
      (GoogleGenAi.translate_text_prompt bare_prompt) (GoogleGenAi.mkWorld [] [])
    = (OK answer, self', w') ∧
    GoogleGenAi.model self'
    = Some (GoogleGenAi.mkGenerativeModel 0 "gemini-1.5-flash") ∧
    GoogleGenAi.created w'
    = [] ++ [GoogleGenAi.mkGenerativeModel 0 "gemini-1.5-flash"] ∧
    GoogleGenAi.translate_response
      (GoogleGenAi.translate_text_prompt bare_prompt) answer
    = OK (SUT.mkSUTResponse (SUT.mkSUTCompletion <$> ["Hi"; "Bye"])).
Proof.
  intros answer d.
  assert (Forall2 has_text (GoogleGenAi.candidates answer) ["Hi"; "Bye"]) as Hall.
  { repeat constructor.
    - exists [("text", PStr "Hi")], []. by split.
    - exists [("text", PStr "Bye")], []. by split. }
  split; [reflexivity |]. split; [reflexivity |]. split; [exact Hall |].
  exact (google_round_trip greeting validate_typed
           "gemini-1.5-flash" "gemini-1.5-flash" bare_prompt
           (GoogleGenAi.mkWorld [] []) d answer ["Hi"; "Bye"]
           eq_refl eq_refl Hall).
Defined.

End AdapterExtra.
